(** * Leaderboard: bundle submission, polling and metric aggregation

    A shallow embedding of [scripts/leaderboard.py].  The script submits a
    bundle of evaluation jobs to an LSF scheduler ([bsub]), polls [bjobs]
    until none of the submitted handles is active, and then averages the
    metrics that the runs logged to the MLflow tracking service.

    Layout of the development:
    - [Py]: the Python built-ins the script relies on ([str.split],
      [str.join], slices, [in] on strings, [str] of [bytes] and of [int]);
    - [Np]: [np.mean] and [np.var] over exact rationals with a NaN element;
    - the world the script acts on (scheduler, tracking store, logger) and
      a state-and-exception monad over it;
    - the methods of class [Leaderboard], in the order of the source;
    - the properties. *)

From Stdlib Require Import QArith Qabs DecimalString Ascii.
From Stdlib Require DecimalNat.
From stdpp Require Import gmap strings list fin_maps.

Open Scope string_scope.
Open Scope list_scope.

(** ** Python built-ins *)

Module Py.

(** [s.split(sep)] for a one-character separator: never the empty list,
    and adjacent separators delimit empty tokens. *)
Fixpoint split (sep : ascii) (s : string) : list string :=
  match s with
  | EmptyString => [EmptyString]
  | String c s' =>
      if Ascii.eqb c sep then EmptyString :: split sep s'
      else match split sep s' with
           | t :: ts => String c t :: ts
           | [] => [String c EmptyString]
           end
  end.

(** [sep.join(l)]. *)
Definition join (sep : string) (l : list string) : string :=
  String.concat sep l.

(** [l[:-2]]: all but the last two elements, nothing when [l] is shorter. *)
Definition drop_last2 {A} (l : list A) : list A :=
  take (length l - 2) l.

(** [s[1:-1]]: the string without its first and last character, empty
    when [s] has at most two characters. *)
Definition strip_ends (s : string) : string :=
  String.substring 1 (String.length s - 2) s.

(** [sub in s] on strings. *)
Fixpoint contains (sub s : string) : bool :=
  String.prefix sub s ||
  match s with
  | EmptyString => false
  | String _ s' => contains sub s'
  end.

(** [str(n)] for a non-negative [int]. *)
Definition str_of_nat (n : nat) : string :=
  NilEmpty.string_of_uint (Nat.to_uint n).

(** [range(n)] for an [int]: empty when [n] is negative. *)
Definition range (n : Z) : list nat := seq 0 (Z.to_nat n).

(** *** [str(b)] for [b : bytes]

    [str] of a bytes object is its [repr]: a [b] prefix, a quote, the
    escaped content, the same quote.  The quote is the apostrophe unless
    the content holds an apostrophe and no double quote. *)

Definition squote : ascii := Ascii.ascii_of_nat 39.
Definition dquote : ascii := Ascii.ascii_of_nat 34.
Definition backslash : ascii := Ascii.ascii_of_nat 92.

Fixpoint has_char (c : ascii) (s : string) : bool :=
  match s with
  | EmptyString => false
  | String d s' => Ascii.eqb d c || has_char c s'
  end.

Definition hex_digit (n : nat) : ascii :=
  Ascii.ascii_of_nat (if n <? 10 then 48 + n else 87 + n)%nat.

Definition repr_byte (quote : ascii) (c : ascii) : string :=
  let n := Ascii.nat_of_ascii c in
  if Ascii.eqb c quote || Ascii.eqb c backslash
  then String backslash (String c EmptyString)
  else if (n =? 9)%nat then String backslash "t"
  else if (n =? 10)%nat then String backslash "n"
  else if (n =? 13)%nat then String backslash "r"
  else if (n <? 32)%nat || (127 <=? n)%nat
  then String backslash
         (String "x" (String (hex_digit (n / 16))
                        (String (hex_digit (n mod 16)) EmptyString)))
  else String c EmptyString.

Fixpoint repr_body (quote : ascii) (b : string) : string :=
  match b with
  | EmptyString => EmptyString
  | String c b' => repr_byte quote c +:+ repr_body quote b'
  end.

Definition repr_quote (b : string) : ascii :=
  if has_char squote b && negb (has_char dquote b) then dquote else squote.

Definition str_of_bytes (b : string) : string :=
  let q := repr_quote b in
  String "b" (String q (repr_body q b +:+ String q EmptyString)).

End Py.


(** ** NumPy statistics

    Metric values are Python floats.  They are modelled as exact rationals
    with one extra element for NaN, which is what [np.mean] and [np.var]
    return on an empty sequence; rounding is outside the model. *)

Module Np.

Inductive float : Type :=
| Fin (q : Q)
| NaN.

Definition lift2 (op : Q -> Q -> Q) (a b : float) : float :=
  match a, b with
  | Fin x, Fin y => Fin (op x y)
  | _, _ => NaN
  end.

Definition add : float -> float -> float := lift2 Qplus.
Definition sub : float -> float -> float := lift2 Qminus.
Definition mul : float -> float -> float := lift2 Qmult.

(** Division of a sum by an element count; [0/0] is NaN. *)
Definition div_count (a : float) (n : nat) : float :=
  match n, a with
  | O, _ => NaN
  | S _, Fin x => Fin (x / inject_Z (Z.of_nat n))
  | S _, NaN => NaN
  end.

Definition sum (v : list float) : float := foldl add (Fin 0) v.

(** [np.mean(v)]. *)
Definition mean (v : list float) : float := div_count (sum v) (length v).

(** [np.var(v)]: the population variance (ddof = 0). *)
Definition var (v : list float) : float :=
  let m := mean v in
  mean ((fun x => mul (sub x m) (sub x m)) <$> v).

(** Equality of floats up to the representation of the rational. *)
Definition eqv (a b : float) : Prop :=
  match a, b with
  | Fin x, Fin y => Qeq x y
  | NaN, NaN => True
  | _, _ => False
  end.

Definition is_nan (a : float) : bool :=
  match a with NaN => true | Fin _ => false end.

(** [a ≈ b] within an absolute tolerance. *)
Definition close (tol : Q) (a : float) (b : Q) : Prop :=
  match a with
  | Fin x => (Qabs (x - b) < tol)%Q
  | NaN => False
  end.

End Np.

(** ** The world of the script *)

(** The exceptions the script can raise. *)
Inductive exn : Type :=
| RuntimeError (msg : string)
| IndexError
| KeyError (key : string)
| AttributeError
| TimeoutExpired.

(** What [p.communicate(timeout=4)] yields for a [bsub] process: its
    standard output as bytes, or no answer within the timeout. *)
Inductive popen : Type :=
| Completed (outs : string)
| NoAnswer.

(** A run of the tracking service: its name tag, its parameters and its
    metrics. *)
Record Run : Type := mkRun {
  run_tag : string;
  run_params : gmap string string;
  run_metrics : gmap string Np.float
}.

(** The records handed to the logger [leaderboard]. *)
Inductive LogEntry : Type :=
| LogStarted (dataset_type : string)
| LogCommand (cmd : string)
| LogJobIds (dataset_type : string) (ids : gset string)
| LogStillRunning (dataset_type : string) (ids : gset string)
| LogAllFinished (dataset_type : string)
| LogAveraging (dataset_type : string)
| LogException (e : exn).

(** Module [env]: the configuration the script reads.  [LSF_OUT] stands
    for [Path.home().joinpath("lsf").joinpath("%J").as_posix()]. *)
Record Env : Type := mkEnv {
  DISCOMAN_V10_PATH : string;
  KITTI_PATH : string;
  TUM_PATH : string;
  TRACKING_URI : string;
  PROJECT_PATH : string;
  LSF_OUT : string
}.

(** The outside world as a script run meets it: the answer of the [k]-th
    [bsub] process, the decoded output of the [k]-th [bjobs] process, the
    [k]-th reading of the clock, and which paths exist. *)
Record Oracle : Type := mkOracle {
  bsub_out : nat -> popen;
  bjobs_out : nat -> string;
  clock : nat -> string;
  path_exists : string -> bool
}.

(** The state the script observes and changes. *)
Record World : Type := mkWorld {
  bsub_calls : list string;        (* commands handed to the shell, in order *)
  bjobs_calls : nat;               (* status queries made so far *)
  slept : list nat;                (* arguments of [time.sleep], in order *)
  log : list LogEntry;             (* records of the logger, in order *)
  stdout : list string;            (* lines printed *)
  clock_reads : nat;               (* readings of the clock so far *)
  tracking : gmap string (list Run) (* experiment name to its runs, as listed *)
}.

(** ** A state and exception monad

    [OutOfFuel] marks a computation whose loop did not end within the
    iterations granted; it is not an exception and no handler sees it. *)

Inductive Res (A : Type) : Type :=
| Ok (a : A)
| Raise (e : exn)
| OutOfFuel.

Arguments Ok {A} a.
Arguments Raise {A} e.
Arguments OutOfFuel {A}.

Definition M (A : Type) : Type := World -> Res A * World.

Definition ret {A} (a : A) : M A := fun w => (Ok a, w).

Definition raise {A} (e : exn) : M A := fun w => (Raise e, w).

Definition bind {A B} (m : M A) (k : A -> M B) : M B :=
  fun w =>
    match m w with
    | (Ok a, w') => k a w'
    | (Raise e, w') => (Raise e, w')
    | (OutOfFuel, w') => (OutOfFuel, w')
    end.

Definition lift {A} (r : Res A) : M A := fun w => (r, w).

(** [try: body  except Exception as e: handler(e)]. *)
Definition try_except {A} (body : M A) (handler : exn -> M A) : M A :=
  fun w =>
    match body w with
    | (Raise e, w') => handler e w'
    | other => other
    end.

Declare Scope py_scope.
Delimit Scope py_scope with py.
Notation "x <- m ;; k" := (bind m (fun x => k))
  (at level 100, m at next level, right associativity) : py_scope.
Notation "m ;;; k" := (bind m (fun _ => k))
  (at level 100, right associativity) : py_scope.
Open Scope py_scope.

(** Primitive effects. *)

Definition logger_info (e : LogEntry) : M unit :=
  fun w => (Ok tt,
            mkWorld (bsub_calls w) (bjobs_calls w) (slept w) (log w ++ [e])
                    (stdout w) (clock_reads w) (tracking w)).

Definition print (s : string) : M unit :=
  fun w => (Ok tt,
            mkWorld (bsub_calls w) (bjobs_calls w) (slept w) (log w)
                    (stdout w ++ [s]) (clock_reads w) (tracking w)).

Definition time_sleep (n : nat) : M unit :=
  fun w => (Ok tt,
            mkWorld (bsub_calls w) (bjobs_calls w) (slept w ++ [n]) (log w)
                    (stdout w) (clock_reads w) (tracking w)).

Definition set_tracking (t : gmap string (list Run)) : M unit :=
  fun w => (Ok tt,
            mkWorld (bsub_calls w) (bjobs_calls w) (slept w) (log w)
                    (stdout w) (clock_reads w) t).

Definition get_tracking : M (gmap string (list Run)) :=
  fun w => (Ok (tracking w), w).

Section Script.

Variable env : Env.
Variable world : Oracle.

(** [datetime.datetime.now().isoformat()]. *)
Definition now_isoformat : M string :=
  fun w => (Ok (clock world (clock_reads w)),
            mkWorld (bsub_calls w) (bjobs_calls w) (slept w) (log w)
                    (stdout w) (S (clock_reads w)) (tracking w)).

(** [sp.Popen(cmd, shell=True, stdout=sp.PIPE)] followed by
    [p.communicate(timeout=4)]: the command reaches the shell, then the
    answer arrives or the timeout expires. *)
Definition popen_bsub (cmd : string) : M string :=
  fun w =>
    let w' := mkWorld (bsub_calls w ++ [cmd]) (bjobs_calls w) (slept w) (log w)
                      (stdout w) (clock_reads w) (tracking w) in
    match bsub_out world (length (bsub_calls w)) with
    | Completed outs => (Ok outs, w')
    | NoAnswer => (Raise TimeoutExpired, w')
    end.

(** [sp.Popen(['bjobs'], ...)], [p.communicate()] and the decoding of the
    output. *)
Definition popen_bjobs : M string :=
  fun w => (Ok (bjobs_out world (bjobs_calls w)),
            mkWorld (bsub_calls w) (S (bjobs_calls w)) (slept w) (log w)
                    (stdout w) (clock_reads w) (tracking w)).

(** ** Class [Leaderboard] *)

Record Leaderboard : Type := mkLeaderboard {
  trainer_path : string;
  dataset_type : string;
  run_name : string;
  bundle_size : Z;
  leader_boards : list string;
  verbose : bool
}.

(** [__init__]. *)
Definition init (trainer_path dataset_type run_name : string)
    (bundle_size : Z) (verbose : bool) : Res Leaderboard :=
  if negb (path_exists world trainer_path)
  then Raise (RuntimeError ("Could not find trainer script " +:+ trainer_path))
  else Ok (mkLeaderboard trainer_path dataset_type run_name bundle_size
             ["kitti_4/6"; "discoman_v10"; "tum"] verbose).

(** The [if]/[elif] chain of [get_lsf_command]. *)
Definition dataset_root_of (dataset_type : string) : option string :=
  if String.eqb dataset_type "discoman_v10" then Some (DISCOMAN_V10_PATH env)
  else if String.eqb dataset_type "discoman_debug" then Some (DISCOMAN_V10_PATH env)
  else if String.eqb dataset_type "kitti_4/6" then Some (KITTI_PATH env)
  else if String.eqb dataset_type "tum" then Some (TUM_PATH env)
  else if String.eqb dataset_type "tum_debug" then Some (TUM_PATH env)
  else None.

Definition get_lsf_command (self : Leaderboard) (dataset_type run_name : string)
  : Res string :=
  match dataset_root_of dataset_type with
  | None => Raise (RuntimeError "Unknown dataset_type")
  | Some dataset_root =>
      Ok (Py.join " "
            [ "bsub";
              "-o " +:+ LSF_OUT env;
              "-gpu " +:+ String Py.dquote
                 ("num=1:mode=exclusive_process" +:+ String Py.dquote "");
              "python";
              "-m [airugpub02, airugpua06, airugpua09, airugpua10]"
                 +:+ trainer_path self;
              "--dataset_root " +:+ dataset_root;
              "--dataset_type " +:+ dataset_type;
              "--run_name " +:+ run_name ])
  end.

(** [str(outs).split(' ')[1][1:-1]]. *)
Definition parse_job_id (outs : string) : Res string :=
  match Py.split " " (Py.str_of_bytes outs) !! 1%nat with
  | Some token => Ok (Py.strip_ends token)
  | None => Raise IndexError
  end.

Definition submit_job (self : Leaderboard) (dataset_type : string)
    (bundle_id : nat) : M string :=
  cmd <- lift (get_lsf_command self dataset_type
                 (run_name self +:+ "_b_" +:+ Py.str_of_nat bundle_id)) ;;
  logger_info (LogCommand cmd) ;;;
  outs <- popen_bsub cmd ;;
  lift (parse_job_id outs).

(** The [for b in range(self.bundle_size)] loop of [submit_bundle]. *)
Fixpoint submit_jobs (self : Leaderboard) (dataset_type : string)
    (bs : list nat) (started_jobs_id : gset string) : M (gset string) :=
  match bs with
  | [] => ret started_jobs_id
  | b :: bs' =>
      job_id <- submit_job self dataset_type b ;;
      submit_jobs self dataset_type bs' (started_jobs_id ∪ {[ job_id ]})
  end.

(** The set of active job identifiers read off the output of [bjobs]: the
    first token of every line but the first and the last. *)
Definition job_ids (outs : string) : gset string :=
  let outs := Py.split (Ascii.ascii_of_nat 10) outs in
  list_to_set
    (omap (fun i => line ← outs !! i; Py.split " " line !! 0%nat)
          (seq 1 (length outs - 1 - 1))).

(** [wait_jobs]; [fuel] bounds the iterations of the [while] loop. *)
Fixpoint wait_jobs (fuel : nat) (dataset_type : string)
    (started_jobs_id : gset string) : M unit :=
  match fuel with
  | O => lift OutOfFuel
  | S fuel' =>
      outs <- popen_bjobs ;;
      let still_running_jobs := started_jobs_id ∩ job_ids outs in
      logger_info (LogStillRunning dataset_type still_running_jobs) ;;;
      if decide (still_running_jobs ≠ ∅)
      then time_sleep 10 ;;; wait_jobs fuel' dataset_type started_jobs_id
      else logger_info (LogAllFinished dataset_type)
  end.

(** [setup_logger] attaches handlers to the logger; the records themselves
    are kept in [log], whatever the handlers. *)
Definition setup_logger (self : Leaderboard) (dataset_type : string) : M unit :=
  ret tt.

(** The base run name of a recorded [run_name] parameter:
    ['_'.join(run_name.split('_')[:-2])]. *)
Definition base_run_name (recorded : string) : string :=
  Py.join "_" (Py.drop_last2 (Py.split "_" recorded)).

(** [not model_name] for [None] or a string. *)
Definition falsy (model_name : option string) : bool :=
  match model_name with
  | None => true
  | Some s => String.eqb s ""
  end.

(** The [for run_info in client.list_run_infos(exp_id)] loop of
    [load_metrics], with its two accumulators. *)
Fixpoint load_runs (self : Leaderboard) (runs : list Run)
    (metrics : list (gmap string Np.float)) (model_name : option string)
  : Res (list (gmap string Np.float) * option string) :=
  match runs with
  | [] => Ok (metrics, model_name)
  | r :: runs' =>
      match run_params r !! "run_name" with
      | None => Raise (KeyError "run_name")
      | Some recorded =>
          if String.eqb (run_name self) (base_run_name recorded)
          then load_runs self runs' (metrics ++ [run_metrics r])
                 (if falsy model_name
                  then Some (default "Unknown" (run_params r !! "model.name"))
                  else model_name)
          else load_runs self runs' metrics model_name
      end
  end.

Definition load_metrics (self : Leaderboard) (dataset_type : string)
  : M (list (gmap string Np.float) * option string) :=
  store <- get_tracking ;;
  match store !! dataset_type with
  | None => raise AttributeError
  | Some runs => lift (load_runs self runs [] None)
  end.

(** [aggregated_metrics.get(k, list()).append(v)]: the list stored under
    [k] grows in place; for an absent key the value goes to a fresh list
    that nothing refers to. *)
Definition get_append (aggregated : gmap string (list Np.float))
    (kv : string * Np.float) : gmap string (list Np.float) :=
  match aggregated !! kv.1 with
  | Some l => <[ kv.1 := l ++ [kv.2] ]> aggregated
  | None => aggregated
  end.

Definition aggregate_metrics (metrics : list (gmap string Np.float))
  : Res (gmap string (list Np.float)) :=
  match metrics with
  | [] => Raise IndexError
  | first :: _ =>
      Ok (foldl (fun aggregated metric =>
                   foldl get_append aggregated (map_to_list metric))
                ((fun _ => []) <$> first) metrics)
  end.

(** A dict comprehension [{key(k): val(v) for k, v in d.items() if keep(k)}]:
    items are inserted in turn, a later one replacing an earlier one. *)
Definition dict_comp {V W} (keep : string -> bool) (key : string -> string)
    (val : V -> W) (d : gmap string V) : gmap string W :=
  foldl (fun acc kv => if keep kv.1 then <[ key kv.1 := val kv.2 ]> acc else acc)
        ∅ (map_to_list d).

(** The run that the [with mlflow.start_run(...)] block of
    [average_metrics] creates: the parameters in the order they are
    logged, then [log_metrics(metrics_mean)] and [log_metrics(metrics_var)]. *)
Definition summary_run (self : Leaderboard) (starting_time : string)
    (model_name : option string) (num_of_runs : nat)
    (metrics_mean metrics_var : gmap string Np.float) : Run :=
  mkRun (run_name self +:+ "_av")
    (<[ "num_of_runs_to_average" := Py.str_of_nat num_of_runs ]>
       (<[ "model.name" := default "None" model_name ]>
          (<[ "starting_time" := starting_time ]>
             (<[ "run_name" := run_name self +:+ "_av" ]> ∅))))
    (metrics_var ∪ (metrics_mean ∪ ∅)).

(** [mlflow.set_experiment] followed by the [with] block: the experiment is
    created when missing and the new run is listed first. *)
Definition publish (dataset_type : string) (r : Run) : M unit :=
  store <- get_tracking ;;
  set_tracking (<[ dataset_type := r :: default [] (store !! dataset_type) ]> store).

(** The two comprehensions of [average_metrics]. *)
Definition metrics_mean_of (aggregated_metrics : gmap string (list Np.float))
  : gmap string Np.float :=
  dict_comp (Py.contains "test") (fun k => k +:+ "_mean") Np.mean aggregated_metrics.

Definition metrics_var_of (aggregated_metrics : gmap string (list Np.float))
  : gmap string Np.float :=
  dict_comp (Py.contains "test") (fun k => k +:+ "_var") Np.var aggregated_metrics.

Definition average_metrics (self : Leaderboard) (dataset_type : string) : M unit :=
  loaded <- load_metrics self dataset_type ;;
  let metrics := loaded.1 in
  let model_name := loaded.2 in
  aggregated_metrics <- lift (aggregate_metrics metrics) ;;
  let metrics_mean := metrics_mean_of aggregated_metrics in
  let metrics_var := metrics_var_of aggregated_metrics in
  starting_time <- now_isoformat ;;
  publish dataset_type
    (summary_run self starting_time model_name (length metrics) metrics_mean metrics_var).

(** [submit_bundle] up to the [try] statement: the jobs are submitted and
    waited for. *)
Definition run_bundle (fuel : nat) (self : Leaderboard) (dataset_type : string)
  : M unit :=
  setup_logger self dataset_type ;;;
  logger_info (LogStarted dataset_type) ;;;
  started_jobs_id <- submit_jobs self dataset_type (Py.range (bundle_size self)) ∅ ;;
  logger_info (LogJobIds dataset_type started_jobs_id) ;;;
  wait_jobs fuel dataset_type started_jobs_id ;;;
  logger_info (LogAveraging dataset_type).

Definition submit_bundle (fuel : nat) (self : Leaderboard) (dataset_type : string)
  : M unit :=
  run_bundle fuel self dataset_type ;;;
  try_except (average_metrics self dataset_type)
             (fun e => logger_info (LogException e)).

(** [pool.apply_async(task)] with a result nobody collects: an exception of
    the task stays in the discarded result. *)
Definition apply_async (task : M unit) : M unit :=
  try_except task (fun _ => ret tt).

(** [submit_on_all_datasets], with the tasks of the pool run one after the
    other in the order of their submission. *)
Fixpoint run_pool (fuel : nat) (self : Leaderboard) (d_types : list string) : M unit :=
  match d_types with
  | [] => ret tt
  | d_type :: rest =>
      apply_async (submit_bundle fuel self d_type) ;;;
      run_pool fuel self rest
  end.

Fixpoint print_submitting (d_types : list string) : M unit :=
  match d_types with
  | [] => ret tt
  | d_type :: rest => print ("Submiting " +:+ d_type) ;;; print_submitting rest
  end.

Definition submit_on_all_datasets (fuel : nat) (self : Leaderboard) : M unit :=
  print_submitting (leader_boards self) ;;;
  run_pool fuel self (leader_boards self).

Definition submit (fuel : nat) (self : Leaderboard) : M unit :=
  if String.eqb (dataset_type self) "leaderboard"
  then submit_on_all_datasets fuel self
  else submit_bundle fuel self (dataset_type self).

End Script.

(** ** Vocabulary of the properties *)

(** The dataset names that [get_lsf_command] accepts. *)
Definition configured_datasets : list string :=
  ["discoman_v10"; "discoman_debug"; "kitti_4/6"; "tum"; "tum_debug"].

(** The run is a member of the run family of [self]. *)
Definition in_family (self : Leaderboard) (r : Run) : Prop :=
  base_run_name <$> run_params r !! "run_name" = Some (run_name self).

#[global] Instance in_family_dec self r : Decision (in_family self r).
Proof. unfold in_family. apply _. Defined.

(** The handles of [started] that the [i]-th status query still lists. *)
Definition still_running (world : Oracle) (started : gset string) (i : nat)
  : gset string :=
  started ∩ job_ids (bjobs_out world i).

(** The values of key [k] in the records that have it, in record order. *)
Definition values_of (k : string) (metrics : list (gmap string Np.float))
  : list Np.float :=
  omap (fun m => m !! k) metrics.

(** The command of the job with bundle index [b]. *)
Definition bundle_command (env : Env) (self : Leaderboard)
    (dataset_type : string) (b : nat) : Res string :=
  get_lsf_command env self dataset_type
    (run_name self +:+ "_b_" +:+ Py.str_of_nat b).

(** A byte that [str] of a bytes object leaves as it is, and that is not a
    space: printable ASCII other than the quotes and the backslash. *)
Definition plain_char (c : ascii) : bool :=
  let n := Ascii.nat_of_ascii c in
  (32 <? n)%nat && (n <? 127)%nat &&
  negb (Ascii.eqb c Py.squote) && negb (Ascii.eqb c Py.dquote) &&
  negb (Ascii.eqb c Py.backslash).

Fixpoint plain (s : string) : bool :=
  match s with
  | EmptyString => true
  | String c s' => plain_char c && plain s'
  end.

(** The token layout in the words of the interface description: tokens are
    delimited by whitespace, and the second one is a job identifier between
    a pair of marker characters, so it has the two markers at least. *)
Definition is_space (c : ascii) : bool :=
  let n := Ascii.nat_of_ascii c in
  (n =? 32)%nat || ((9 <=? n)%nat && (n <=? 13)%nat).

Fixpoint ws_tokens_from (cur : string) (s : string) : list string :=
  match s with
  | EmptyString => if String.eqb cur "" then [] else [cur]
  | String c s' =>
      if is_space c
      then (if String.eqb cur "" then [] else [cur]) ++ ws_tokens_from "" s'
      else ws_tokens_from (cur +:+ String c "") s'
  end.

Definition ws_tokens (s : string) : list string := ws_tokens_from "" s.

Definition spec_token_layout (outs : string) : bool :=
  match ws_tokens outs !! 1%nat with
  | Some token => (2 <=? String.length token)%nat
  | None => false
  end.

(** The handle in the words of the interface description. *)
Definition spec_job_handle (outs : string) : Res string :=
  match ws_tokens outs !! 1%nat with
  | Some token =>
      if (2 <=? String.length token)%nat then Ok (Py.strip_ends token)
      else Raise IndexError
  | None => Raise IndexError
  end.

(** The last character of a string. *)
Fixpoint last_char (s : string) : option ascii :=
  match s with
  | EmptyString => None
  | String c EmptyString => Some c
  | String _ s' => last_char s'
  end.

(** ** A concrete scenario *)

Module Demo.

Definition nl : string := String (Ascii.ascii_of_nat 10) "".

Definition env : Env := mkEnv "/data/discoman" "/data/kitti" "/data/tum" "http://tracking" "/proj" "/home/user/lsf/%J".

(** The scheduler acknowledges the [k]-th submission with handle [100 + k];
    the first two status queries list job 101, later ones list nothing. *)
Definition world : Oracle :=
  mkOracle
    (fun k => Completed ("Job <" +:+ Py.str_of_nat (100 + k)
                           +:+ "> is submitted to queue <normal>." +:+ nl))
    (fun k => if (k <? 2)%nat
              then "JOBID USER STAT" +:+ nl +:+ "101 user RUN" +:+ nl
                   +:+ "999 other RUN" +:+ nl
              else "")
    (fun _ => "2020-01-01T00:00:00")
    (fun _ => true).

(** A scheduler whose acknowledgement carries no bracketed identifier. *)
Definition odd : Oracle :=
  mkOracle (fun _ => Completed "Job 7 ok") (fun _ => "") (fun _ => "")
    (fun _ => true).

(** A scheduler that never answers a submission. *)
Definition silent : Oracle :=
  mkOracle (fun _ => NoAnswer) (fun _ => "") (fun _ => "") (fun _ => true).

Definition record (a b : Q) : gmap string Np.float :=
  <[ "test_a" := Np.Fin a ]> (<[ "test_b" := Np.Fin b ]> ∅).

Definition run (name : string) (metrics : gmap string Np.float) : Run :=
  mkRun name (<[ "run_name" := name ]> ∅) metrics.

Definition runs : list Run :=
  [ run "exp_b_0" (record 1 10);
    run "exp_b_1" (record 2 20);
    run "exp_b_2" (record 3 30) ].

Definition self : Leaderboard :=
  mkLeaderboard "train.py" "tum" "exp" 3 ["kitti_4/6"; "discoman_v10"; "tum"] false.

Definition w0 : World :=
  mkWorld [] 0 [] [] [] 0 (<[ "tum" := runs ]> ∅).

(** The same runs with a training loss beside the test metrics. *)
Definition runs_with_loss : list Run :=
  [ run "exp_b_0" (<[ "train_loss" := Np.Fin 5 ]> (record 1 10));
    run "exp_b_1" (<[ "train_loss" := Np.Fin 4 ]> (record 2 20));
    run "exp_b_2" (<[ "train_loss" := Np.Fin 3 ]> (record 3 30)) ].

Definition w_loss : World :=
  mkWorld [] 0 [] [] [] 0 (<[ "tum" := runs_with_loss ]> ∅).

(** Runs of another family only. *)
Definition w_other : World :=
  mkWorld [] 0 [] [] [] 0
    (<[ "tum" := [ run "other_b_0" (record 1 10); run "exp1_b_3" (record 2 20) ] ]> ∅).

End Demo.

(** ** Further functions and vocabulary *)

(** [s.replace(a, b)] for one-character [a] and [b]. *)
Fixpoint str_replace (a b : ascii) (s : string) : string :=
  match s with
  | EmptyString => EmptyString
  | String c s' => String (if Ascii.eqb c a then b else c) (str_replace a b s')
  end.

(** [os.path.join(a, b)] on a POSIX system. *)
Definition path_join (a b : string) : string :=
  if String.prefix "/" b then b
  else if String.eqb a ""
  then b
  else match last_char a with
       | Some c => if Ascii.eqb c "/" then a +:+ b else a +:+ "/" +:+ b
       | None => b
       end.

(** The file that [setup_logger] opens for a dataset:
    [os.path.join(env.PROJECT_PATH, f'log_leaderboard_{dataset_type}.txt')]
    after [dataset_type.replace('/', '_')]. *)
Definition log_file (env : Env) (dataset_type : string) : string :=
  path_join (PROJECT_PATH env)
    ("log_leaderboard_" +:+ str_replace "/" "_" dataset_type +:+ ".txt").

Definition is_digit (c : ascii) : bool :=
  let n := Ascii.nat_of_ascii c in (48 <=? n)%nat && (n <=? 57)%nat.

Fixpoint all_digits (s : string) : bool :=
  match s with
  | EmptyString => true
  | String c s' => is_digit c && all_digits s'
  end.

(** The run family of [self] among the listed runs. *)
Definition family (self : Leaderboard) (runs : list Run) : list Run :=
  filter (in_family self) runs.

(** The model name that [load_metrics] reads off a run. *)
Definition model_name_of (r : Run) : string :=
  default "Unknown" (run_params r !! "model.name").

(** The first space-delimited token of a line of [bjobs]. *)
Definition first_token (line : string) : string :=
  default "" (Py.split " " line !! 0%nat).

(** The world after one more reading of the clock and the listing of a new
    run at the head of an experiment. *)
Definition with_run (w : World) (dataset_type : string) (r : Run) : World :=
  mkWorld (bsub_calls w) (bjobs_calls w) (slept w) (log w) (stdout w)
    (S (clock_reads w))
    (<[ dataset_type := r :: default [] (tracking w !! dataset_type) ]>
       (tracking w)).

(** The summary run that [average_metrics] builds from the world [w] for
    the family metrics [metrics] and the model name [model_name]. *)
Definition summary_of (world : Oracle) (self : Leaderboard) (w : World)
    (metrics : list (gmap string Np.float)) (model_name : option string) : Run :=
  match aggregate_metrics metrics with
  | Ok aggregated =>
      summary_run self (clock world (clock_reads w)) model_name (length metrics)
        (metrics_mean_of aggregated) (metrics_var_of aggregated)
  | _ => mkRun "" ∅ ∅
  end.

(** What [submit_job] makes of the answer to a submission. *)
Definition answer_of (p : popen) : Res string :=
  match p with
  | Completed outs => parse_job_id outs
  | NoAnswer => Raise TimeoutExpired
  end.

(** ** Properties of the built-ins *)

#[local] Arguments String.append : simpl nomatch.

Section PyFacts.

Implicit Types (s t : string) (c sep : ascii) (l : list string).

Lemma string_app_nil_r s : s +:+ "" = s.
Proof. induction s as [|c s IH]; simpl; [done | by rewrite IH]. Qed.

Lemma string_app_assoc s t u : (s +:+ t) +:+ u = s +:+ (t +:+ u).
Proof. induction s as [|c s IH]; simpl; [done | by rewrite IH]. Qed.

Lemma string_app_length s t :
  String.length (s +:+ t) = String.length s + String.length t.
Proof. induction s as [|c s IH]; simpl; [done | by rewrite IH]. Qed.

(** A suffix can be cancelled. *)
Lemma string_app_inj_r s1 s2 t : s1 +:+ t = s2 +:+ t -> s1 = s2.
Proof.
  revert s2. induction s1 as [|c s1 IH]; intros [|d s2] H; simpl in *.
  - done.
  - apply (f_equal String.length) in H. simpl in H.
    rewrite string_app_length in H. lia.
  - apply (f_equal String.length) in H. simpl in H.
    rewrite string_app_length in H. lia.
  - injection H as -> H. f_equal. by apply IH.
Qed.

Lemma split_nonempty sep s : Py.split sep s ≠ [].
Proof.
  destruct s as [|c s]; simpl; [done |].
  destruct (Ascii.eqb c sep); [done |].
  by destruct (Py.split sep s).
Qed.

(** Splitting at a separator splits the token lists. *)
Lemma split_app sep s t :
  Py.split sep (s +:+ String sep t) = Py.split sep s ++ Py.split sep t.
Proof.
  induction s as [|c s IH]; simpl.
  - by rewrite Ascii.eqb_refl.
  - destruct (Ascii.eqb c sep); [by rewrite IH |].
    rewrite IH. pose proof (split_nonempty sep s) as Hne.
    by destruct (Py.split sep s).
Qed.

Lemma split_no_sep sep s : Py.has_char sep s = false -> Py.split sep s = [s].
Proof.
  induction s as [|c s IH]; simpl; [done |].
  intros [Hc Hs]%orb_false_iff. rewrite Hc, (IH Hs). done.
Qed.

(** [sep.join(s.split(sep))] gives [s] back. *)
Lemma join_split sep s : Py.join (String sep "") (Py.split sep s) = s.
Proof.
  unfold Py.join. induction s as [|c s IH]; simpl; [done |].
  destruct (Ascii.eqb_spec c sep) as [->|Hne].
  - pose proof (split_nonempty sep s) as Hs.
    destruct (Py.split sep s) as [|t ts]; [done |].
    change (String.concat (String sep "") ("" :: t :: ts))
      with ("" +:+ String sep "" +:+ String.concat (String sep "") (t :: ts)).
    by rewrite IH.
  - destruct (Py.split sep s) as [|t ts] eqn:E.
    + by destruct (split_nonempty sep s).
    + destruct ts as [|t' ts].
      * change (String c t = String c s). f_equal. exact IH.
      * change (String c (t +:+ String sep "" +:+
                            String.concat (String sep "") (t' :: ts)) = String c s).
        f_equal. exact IH.
Qed.

Lemma join_snoc sep_s l t :
  l ≠ [] -> Py.join sep_s (l ++ [t]) = Py.join sep_s l +:+ sep_s +:+ t.
Proof.
  unfold Py.join. induction l as [|a l IH]; [done |]. intros _.
  destruct l as [|b l]; [done |].
  change (String.concat sep_s ((a :: b :: l) ++ [t]))
    with (a +:+ sep_s +:+ String.concat sep_s ((b :: l) ++ [t])).
  rewrite IH by done.
  change (String.concat sep_s (a :: b :: l))
    with (a +:+ sep_s +:+ String.concat sep_s (b :: l)).
  by rewrite !string_app_assoc.
Qed.

(** Dropping the last two tokens after one more token was appended. *)
Lemma drop_last2_snoc2 {A} (l : list A) (x y : A) :
  Py.drop_last2 ((l ++ [x]) ++ [y]) = l.
Proof.
  unfold Py.drop_last2. rewrite !length_app. simpl.
  replace (length l + 1 + 1 - 2) with (length l) by lia.
  rewrite <- app_assoc. by rewrite take_app_length.
Qed.

Lemma prefix_app sub s t :
  String.prefix sub s = true -> String.prefix sub (s +:+ t) = true.
Proof.
  revert s. induction sub as [|c sub IH]; intros [|d s] H; simpl in *; try done.
  - by destruct t.
  - destruct (Ascii.ascii_dec c d); [by apply IH | done].
Qed.

Lemma contains_app_l sub s t :
  Py.contains sub s = true -> Py.contains sub (s +:+ t) = true.
Proof.
  induction s as [|d s IH]; simpl.
  - rewrite orb_false_r. intros H. destruct sub; [|done].
    by destruct t.
  - intros [H|H]%orb_true_iff; apply orb_true_iff.
    + left. by apply (prefix_app sub (String d s) t).
    + right. by apply IH.
Qed.

Lemma last_char_app s t : t ≠ "" -> last_char (s +:+ t) = last_char t.
Proof.
  intros Ht. induction s as [|c s IH]; simpl; [done |].
  rewrite <- IH. destruct (s +:+ t) eqn:E; [|done].
  destruct s; simpl in E; [done | discriminate].
Qed.

End PyFacts.

(** ** Run families *)

Section Family.

Implicit Types (self : Leaderboard) (r : Run) (runs : list Run).

Lemma in_family_eqb self r recorded :
  run_params r !! "run_name" = Some recorded ->
  String.eqb (run_name self) (base_run_name recorded) = true <-> in_family self r.
Proof.
  intros Hrec. unfold in_family. rewrite Hrec. simpl.
  rewrite String.eqb_eq. split; [by intros -> | by intros [= ->]].
Qed.

(** The loop of [load_metrics] appends the metrics of the family members,
    in the order of the listing, or stops at a run without [run_name]. *)
Lemma load_runs_spec self runs metrics model_name :
  match load_runs self runs metrics model_name with
  | Ok (metrics', _) =>
      metrics' = metrics ++ (run_metrics <$> filter (in_family self) runs)
      /\ Forall (fun r => is_Some (run_params r !! "run_name")) runs
  | Raise e =>
      e = KeyError "run_name"
      /\ Exists (fun r => run_params r !! "run_name" = None) runs
  | OutOfFuel => False
  end.
Proof.
  revert metrics model_name.
  induction runs as [|r runs IH]; intros metrics model_name; simpl.
  - by rewrite app_nil_r.
  - destruct (run_params r !! "run_name") as [recorded|] eqn:Hrec.
    + pose proof (in_family_eqb self r recorded Hrec) as Hfam.
      destruct (String.eqb (run_name self) (base_run_name recorded)).
      * assert (in_family self r) as Hin by (by apply Hfam).
        rewrite (filter_cons_True _ _ _ Hin).
        match goal with |- context [load_runs self runs ?m ?n] =>
          specialize (IH m n); destruct (load_runs self runs m n) as [[m' n']|e|]
        end.
        -- destruct IH as [-> Hall]. split.
           ++ by rewrite fmap_cons, <- app_assoc.
           ++ constructor; [by rewrite Hrec | done].
        -- destruct IH as [-> Hex]. split; [done | by apply Exists_cons_tl].
        -- done.
      * assert (~ in_family self r) as Hout
          by (intros Hin; apply Hfam in Hin; discriminate).
        rewrite (filter_cons_False _ _ _ Hout).
        specialize (IH metrics model_name).
        destruct (load_runs self runs metrics model_name) as [[m' n']|e|].
        -- destruct IH as [-> Hall]. split; [done |].
           constructor; [by rewrite Hrec | done].
        -- destruct IH as [-> Hex]. split; [done | by apply Exists_cons_tl].
        -- done.
    + split; [done | by apply Exists_cons_hd].
Qed.

(** A run outside the family leaves the loop as it is, wherever the
    tracking service lists it. *)
Lemma load_runs_skip self r runs1 runs2 metrics model_name :
  is_Some (run_params r !! "run_name") ->
  ~ in_family self r ->
  load_runs self (runs1 ++ r :: runs2) metrics model_name
  = load_runs self (runs1 ++ runs2) metrics model_name.
Proof.
  intros [recorded Hrec] Hout. revert metrics model_name.
  induction runs1 as [|r1 runs1 IH]; intros metrics model_name; simpl.
  - rewrite Hrec.
    pose proof (in_family_eqb self r recorded Hrec) as Hfam.
    destruct (String.eqb (run_name self) (base_run_name recorded)); [|done].
    destruct Hout. by apply Hfam.
  - destruct (run_params r1 !! "run_name"); [|done].
    destruct (String.eqb _ _); apply IH.
Qed.

(** The base name of [name_av]: the tokens of [name] without the last. *)
Lemma base_run_name_av name :
  exists tokens t,
    Py.split "_" name = tokens ++ [t]
    /\ base_run_name (name +:+ "_av") = Py.join "_" tokens.
Proof.
  destruct (exists_last (split_nonempty "_" name)) as (tokens & t & Hsplit).
  exists tokens, t. split; [done |].
  unfold base_run_name.
  change (name +:+ "_av") with (name +:+ String "_" "av").
  rewrite split_app, Hsplit.
  change (Py.split "_" "av") with ["av"].
  by rewrite drop_last2_snoc2.
Qed.

Lemma base_run_name_av_shorter name :
  name ≠ "" ->
  (String.length (base_run_name (name +:+ "_av")) < String.length name)%nat.
Proof.
  intros Hne.
  destruct (base_run_name_av name) as (tokens & t & Hsplit & ->).
  pose proof (join_split "_" name) as Hjoin. rewrite Hsplit in Hjoin.
  destruct tokens as [|t0 tokens].
  - simpl in Hjoin. subst t. destruct name; [done | simpl; lia].
  - rewrite join_snoc in Hjoin by done. rewrite <- Hjoin.
    rewrite !string_app_length. simpl. lia.
Qed.

End Family.

(** C5: the base run name of a run is its recorded [run_name] parameter
    split on the underscore with the last two tokens dropped, so that
    [exp1_b_3] gives [exp1] and [my_run_b_0] gives [my_run]; the loop of
    [load_metrics] keeps the metrics of exactly the runs whose base name
    equals the configured [run_name] (it fails only on a run that has no
    [run_name] parameter), and equality is meant: a base name that merely
    starts with the configured name is not kept. *)
Theorem run_family_by_base_name :
  base_run_name "exp1_b_3" = "exp1"
  /\ base_run_name "my_run_b_0" = "my_run"
  /\ (forall self runs,
        match load_runs self runs [] None with
        | Ok (metrics, _) =>
            metrics = run_metrics <$> filter (in_family self) runs
        | Raise e =>
            e = KeyError "run_name"
            /\ Exists (fun r => run_params r !! "run_name" = None) runs
        | OutOfFuel => False
        end)
  /\ (forall self r recorded,
        run_params r !! "run_name" = Some recorded ->
        (in_family self r <->
         Py.join "_" (Py.drop_last2 (Py.split "_" recorded)) = run_name self))
  /\ (String.prefix (run_name Demo.self) (base_run_name "exp1_b_3") = true
      /\ load_runs Demo.self [Demo.run "exp1_b_3" (Demo.record 1 10)] [] None
         = Ok ([], None)).
Proof.
  split; [reflexivity |]. split; [reflexivity |]. split; [| split].
  - intros self runs. pose proof (load_runs_spec self runs [] None) as H.
    destruct (load_runs self runs [] None) as [[m n]|e|]; [|done|done].
    by destruct H as [-> _].
  - intros self r recorded Hrec. unfold in_family. rewrite Hrec. simpl.
    unfold base_run_name. split; [by intros [= ->] | by intros ->].
  - split; reflexivity.
Qed.

(** C10: for a non-empty configured [run_name], the summary run published
    as [run_name_av] is never a member of its own run family: its base name
    is strictly shorter than [run_name], hence different from it, the loop
    of [load_metrics] passes over it wherever it is listed, and loading the
    metrics again after an aggregation returns what it returned before. *)
Theorem summary_run_outside_family (self : Leaderboard) :
  run_name self ≠ "" ->
  (String.length (base_run_name (run_name self +:+ "_av"))
   < String.length (run_name self))%nat
  /\ base_run_name (run_name self +:+ "_av") ≠ run_name self
  /\ (forall t model_name n metrics_mean metrics_var runs1 runs2 metrics m,
        load_runs self
          (runs1 ++ summary_run self t model_name n metrics_mean metrics_var
                 :: runs2) metrics m
        = load_runs self (runs1 ++ runs2) metrics m)
  /\ (forall world dataset_type w w',
        average_metrics world self dataset_type w = (Ok tt, w') ->
        (load_metrics self dataset_type w').1
        = (load_metrics self dataset_type w).1).
Proof.
  intros Hne.
  pose proof (base_run_name_av_shorter (run_name self) Hne) as Hlen.
  assert (base_run_name (run_name self +:+ "_av") ≠ run_name self) as Hbase.
  { intros Heq. rewrite Heq in Hlen. lia. }
  assert (forall t model_name n mm mv,
             is_Some (run_params (summary_run self t model_name n mm mv)
                        !! "run_name")
             /\ ~ in_family self (summary_run self t model_name n mm mv))
    as Hsummary.
  { intros t model_name n mm mv.
    assert (run_params (summary_run self t model_name n mm mv) !! "run_name"
            = Some (run_name self +:+ "_av")) as Hrec.
    { unfold summary_run. simpl.
      rewrite !lookup_insert_ne by done. by rewrite lookup_insert_eq. }
    split; [by rewrite Hrec |].
    unfold in_family. rewrite Hrec. simpl. by intros [= H]. }
  split; [done |]. split; [done |]. split.
  - intros t model_name n mm mv runs1 runs2 metrics m.
    destruct (Hsummary t model_name n mm mv) as [Hsome Hout].
    by apply load_runs_skip.
  - intros world dataset_type w w' Hav.
    unfold average_metrics, bind in Hav.
    unfold load_metrics, bind, get_tracking in Hav |- *.
    destruct (tracking w !! dataset_type) as [runs|] eqn:Hruns;
      [|discriminate].
    unfold lift in Hav |- *.
    destruct (load_runs self runs [] None) as [[metrics m]|e|] eqn:Hload;
      [|discriminate|discriminate].
    simpl in Hav.
    destruct (aggregate_metrics metrics) as [agg|e|]; [|discriminate|discriminate].
    unfold now_isoformat, publish, bind, get_tracking, set_tracking in Hav.
    simpl in Hav. injection Hav as <-. simpl.
    rewrite lookup_insert_eq. rewrite Hruns. simpl default.
    match goal with |- context [load_runs self (?s :: runs) [] None] =>
      change (s :: runs) with ([] ++ s :: runs)
    end.
    destruct (Hsummary (clock world (clock_reads w)) m (length metrics)
                (metrics_mean_of agg) (metrics_var_of agg)) as [Hsome Hout].
    rewrite (load_runs_skip self _ [] runs [] None Hsome Hout).
    simpl. by rewrite Hload.
Qed.

Lemma summary_run_outside_family_witness :
  run_name Demo.self ≠ ""
  /\ (String.length (base_run_name (run_name Demo.self +:+ "_av"))
      < String.length (run_name Demo.self))%nat.
Proof.
  assert (run_name Demo.self ≠ "") as H by discriminate.
  split; [exact H |].
  exact (proj1 (summary_run_outside_family Demo.self H)).
Defined.

(** ** The polling loop *)

Section Polling.

Variable world : Oracle.
Variable dataset_type : string.
Variable started : gset string.

Abbreviation active q j := (still_running world started (q + j) ≠ ∅).

(** One turn of the loop. *)
Lemma wait_jobs_step fuel w :
  wait_jobs world (S fuel) dataset_type started w
  = let w1 :=
      mkWorld (bsub_calls w) (S (bjobs_calls w)) (slept w)
        (log w ++ [LogStillRunning dataset_type
                     (still_running world started (bjobs_calls w))])
        (stdout w) (clock_reads w) (tracking w) in
    if decide (still_running world started (bjobs_calls w) ≠ ∅)
    then wait_jobs world fuel dataset_type started
           (mkWorld (bsub_calls w1) (bjobs_calls w1) (slept w1 ++ [10])
              (log w1) (stdout w1) (clock_reads w1) (tracking w1))
    else (Ok tt,
          mkWorld (bsub_calls w1) (bjobs_calls w1) (slept w1)
            (log w1 ++ [LogAllFinished dataset_type])
            (stdout w1) (clock_reads w1) (tracking w1)).
Proof.
  cbn [wait_jobs]. unfold bind, popen_bjobs, logger_info, time_sleep.
  cbn -[wait_jobs]. unfold still_running. by destruct (decide _).
Qed.

(** The first query with an empty intersection, when there is one. *)
Lemma first_clear q i :
  still_running world started (q + i) = ∅ ->
  exists n, (n <= i)%nat
            /\ still_running world started (q + n) = ∅
            /\ forall j, (j < n)%nat -> active q j.
Proof.
  revert q. induction i as [|i IH]; intros q Hi.
  - exists 0%nat. split; [lia |]. split; [done |]. intros j Hj. lia.
  - destruct (decide (still_running world started (q + 0) = ∅)) as [H0|H0].
    + exists 0%nat. split; [lia |]. split; [done |]. intros j Hj. lia.
    + destruct (IH (S q)) as (n & Hn & Hclear & Hbefore).
      { by replace (S q + i)%nat with (q + S i)%nat by lia. }
      exists (S n). split; [lia |]. split.
      * by replace (q + S n)%nat with (S q + n)%nat by lia.
      * intros [|j] Hj; [done |].
        replace (q + S j)%nat with (S q + j)%nat by lia. apply Hbefore. lia.
Qed.

(** With the first clear query at distance [n], fuel beyond [n] is enough:
    the loop makes [n + 1] queries and sleeps [n] times. *)
Lemma wait_jobs_done n : forall fuel w,
  (n < fuel)%nat ->
  (forall j, (j < n)%nat -> active (bjobs_calls w) j) ->
  still_running world started (bjobs_calls w + n) = ∅ ->
  exists w',
    wait_jobs world fuel dataset_type started w = (Ok tt, w')
    /\ bjobs_calls w' = (bjobs_calls w + S n)%nat
    /\ slept w' = slept w ++ replicate n 10%nat.
Proof.
  induction n as [|n IH]; intros [|fuel] w Hfuel Hbefore Hclear; try lia.
  - rewrite wait_jobs_step. cbn zeta.
    rewrite Nat.add_0_r in Hclear.
    destruct (decide _) as [Hact|_]; [done |].
    eexists. split; [done |]. simpl. split; [lia | by rewrite app_nil_r].
  - rewrite wait_jobs_step. cbn zeta.
    destruct (decide _) as [_|Hnot].
    + edestruct (IH fuel) as (w' & Hrun & Hq & Hs); last first.
      * exists w'. split; [exact Hrun |]. simpl in Hq, Hs. split; [lia |].
        rewrite Hs, <- app_assoc. done.
      * simpl. rewrite <- Nat.add_succ_r. exact Hclear.
      * simpl. intros j Hj. rewrite <- Nat.add_succ_r. apply Hbefore. lia.
      * lia.
    + destruct Hnot. specialize (Hbefore 0%nat).
      rewrite Nat.add_0_r in Hbefore. apply Hbefore. lia.
Qed.

(** While every query finds a tracked handle, the loop uses up its fuel. *)
Lemma wait_jobs_busy fuel : forall w,
  (forall j, (j < fuel)%nat -> active (bjobs_calls w) j) ->
  exists w',
    wait_jobs world fuel dataset_type started w = (OutOfFuel, w')
    /\ bjobs_calls w' = (bjobs_calls w + fuel)%nat
    /\ slept w' = slept w ++ replicate fuel 10%nat.
Proof.
  induction fuel as [|fuel IH]; intros w Hbusy.
  - exists w. simpl. split; [done |]. split; [lia | by rewrite app_nil_r].
  - rewrite wait_jobs_step. cbn zeta.
    destruct (decide _) as [_|Hnot].
    + edestruct IH as (w' & Hrun & Hq & Hs); last first.
      * exists w'. split; [exact Hrun |]. simpl in Hq, Hs. split; [lia |].
        rewrite Hs, <- app_assoc. done.
      * simpl. intros j Hj. rewrite <- Nat.add_succ_r. apply Hbusy. lia.
    + destruct Hnot. specialize (Hbusy 0%nat).
      rewrite Nat.add_0_r in Hbusy. apply Hbusy. lia.
Qed.

(** What a finished loop has seen. *)
Lemma wait_jobs_inv fuel : forall w r w',
  wait_jobs world fuel dataset_type started w = (r, w') ->
  match r with
  | Ok _ =>
      exists n, (n < fuel)%nat
                /\ bjobs_calls w' = (bjobs_calls w + S n)%nat
                /\ still_running world started (bjobs_calls w + n) = ∅
                /\ (forall j, (j < n)%nat -> active (bjobs_calls w) j)
                /\ slept w' = slept w ++ replicate n 10%nat
  | Raise _ => False
  | OutOfFuel => forall j, (j < fuel)%nat -> active (bjobs_calls w) j
  end.
Proof.
  induction fuel as [|fuel IH]; intros w r w' Hrun.
  - simpl in Hrun. injection Hrun as <- <-. intros j Hj. lia.
  - rewrite wait_jobs_step in Hrun. cbn zeta in Hrun.
    destruct (decide _) as [Hact|Hclear].
    + apply IH in Hrun. simpl in Hrun. destruct r as [[]|e|]; [|done|].
      * destruct Hrun as (n & Hn & Hq & Hclear & Hbefore & Hs).
        exists (S n). split; [lia |]. split; [lia |]. split.
        { rewrite Nat.add_succ_r. exact Hclear. }
        split.
        -- intros [|j] Hj.
           ++ by rewrite Nat.add_0_r.
           ++ rewrite Nat.add_succ_r. apply Hbefore. lia.
        -- rewrite Hs, <- app_assoc. done.
      * intros [|j] Hj.
        -- by rewrite Nat.add_0_r.
        -- rewrite Nat.add_succ_r. apply Hrun. lia.
    + injection Hrun as <- <-. exists 0%nat. simpl.
      split; [lia |]. split; [lia |]. split.
      * rewrite Nat.add_0_r.
        destruct (decide (still_running world started (bjobs_calls w) = ∅))
          as [H|H]; [exact H | by destruct Hclear].
      * split; [intros j Hj; lia | by rewrite app_nil_r].
Qed.

(** The loop reads and writes nothing but the query count, the sleeps and
    the log. *)
Lemma wait_jobs_frame fuel : forall w r w',
  wait_jobs world fuel dataset_type started w = (r, w') ->
  bsub_calls w' = bsub_calls w /\ tracking w' = tracking w
  /\ clock_reads w' = clock_reads w /\ stdout w' = stdout w.
Proof.
  induction fuel as [|fuel IH]; intros w r w' Hrun.
  - simpl in Hrun. by injection Hrun as <- <-.
  - rewrite wait_jobs_step in Hrun. cbn zeta in Hrun.
    destruct (decide _).
    + by apply IH in Hrun.
    + by injection Hrun as <- <-.
Qed.

End Polling.

(** C1: for every tracked handle set and every sequence of status-query
    results, the polling loop of [wait_jobs] ends (with enough fuel) if and
    only if some query finds no tracked handle among the active jobs.  When
    it ends after [n + 1] queries, the last query found none, each of the
    [n] before found one and was followed by a sleep of 10; as long as
    every query finds one, the loop sleeps and repeats and no amount of
    fuel ends it; it raises no exception. *)
Theorem wait_jobs_terminates_iff (world : Oracle) (dataset_type : string)
    (started : gset string) (w : World) :
  ((exists fuel w', wait_jobs world fuel dataset_type started w = (Ok tt, w'))
   <-> (exists i, started ∩ job_ids (bjobs_out world (bjobs_calls w + i)) = ∅))
  /\ (forall fuel w',
        wait_jobs world fuel dataset_type started w = (Ok tt, w') ->
        exists n,
          (n < fuel)%nat
          /\ bjobs_calls w' = (bjobs_calls w + S n)%nat
          /\ started ∩ job_ids (bjobs_out world (bjobs_calls w + n)) = ∅
          /\ (forall j, (j < n)%nat ->
                started ∩ job_ids (bjobs_out world (bjobs_calls w + j)) ≠ ∅)
          /\ slept w' = slept w ++ replicate n 10%nat)
  /\ (forall fuel,
        (forall j, (j < fuel)%nat ->
           started ∩ job_ids (bjobs_out world (bjobs_calls w + j)) ≠ ∅) ->
        exists w',
          wait_jobs world fuel dataset_type started w = (OutOfFuel, w')
          /\ bjobs_calls w' = (bjobs_calls w + fuel)%nat
          /\ slept w' = slept w ++ replicate fuel 10%nat)
  /\ (forall fuel e w',
        wait_jobs world fuel dataset_type started w ≠ (Raise e, w')).
Proof.
  split; [split |]; [| | split; [| split]].
  - intros (fuel & w' & Hrun).
    apply wait_jobs_inv in Hrun as (n & _ & _ & Hclear & _). by exists n.
  - intros (i & Hi).
    destruct (first_clear world started (bjobs_calls w) i Hi)
      as (n & _ & Hclear & Hbefore).
    destruct (wait_jobs_done world dataset_type started n (S n) w)
      as (w' & Hrun & _); [lia | done | done |].
    by exists (S n), w'.
  - intros fuel w' Hrun. apply wait_jobs_inv in Hrun. exact Hrun.
  - intros fuel Hbusy. by apply wait_jobs_busy.
  - intros fuel e w' Hrun. by apply wait_jobs_inv in Hrun.
Qed.

(** ** Submission *)

Section Submission.

Variable env : Env.
Variable world : Oracle.

Implicit Types (self : Leaderboard) (w : World).

Lemma dataset_root_of_unknown d :
  d ∉ configured_datasets -> dataset_root_of env d = None.
Proof.
  intros Hd. unfold dataset_root_of.
  repeat match goal with
         | |- context [String.eqb d ?name] =>
             destruct (String.eqb_spec d name) as [->|_];
             [exfalso; apply Hd; unfold configured_datasets; set_solver |]
         end.
  done.
Qed.

Lemma dataset_root_of_known d :
  d ∈ configured_datasets -> is_Some (dataset_root_of env d).
Proof.
  unfold configured_datasets. rewrite !elem_of_cons, elem_of_nil.
  intros [->|[->|[->|[->|[->|[]]]]]]; by eexists.
Qed.

Lemma get_lsf_command_known self d name :
  d ∈ configured_datasets -> exists cmd, get_lsf_command env self d name = Ok cmd.
Proof.
  intros [root Hroot]%dataset_root_of_known.
  unfold get_lsf_command. rewrite Hroot. by eexists.
Qed.

(** A submission for a known dataset: the command is logged and handed to
    the shell, and the answer decides the outcome. *)
Lemma submit_job_known self d b w cmd :
  bundle_command env self d b = Ok cmd ->
  submit_job env world self d b w
  = (match bsub_out world (length (bsub_calls w)) with
     | Completed outs => parse_job_id outs
     | NoAnswer => Raise TimeoutExpired
     end,
     mkWorld (bsub_calls w ++ [cmd]) (bjobs_calls w) (slept w)
       (log w ++ [LogCommand cmd]) (stdout w) (clock_reads w) (tracking w)).
Proof.
  unfold bundle_command. intros Hcmd.
  unfold submit_job, bind, lift. rewrite Hcmd.
  unfold logger_info, popen_bsub. simpl.
  destruct (bsub_out world (length (bsub_calls w))) as [outs|]; [|done].
  by destruct (parse_job_id outs).
Qed.

(** A submission for an unknown dataset stops at the construction of the
    command: the world is as it was. *)
Lemma submit_job_unknown self d b w :
  d ∉ configured_datasets ->
  submit_job env world self d b w
  = (Raise (RuntimeError "Unknown dataset_type"), w).
Proof.
  intros Hd. unfold submit_job, bind, lift, get_lsf_command.
  by rewrite (dataset_root_of_unknown d Hd).
Qed.

Lemma submit_jobs_unknown self d bs started w :
  d ∉ configured_datasets ->
  submit_jobs env world self d bs started w
  = match bs with
    | [] => (Ok started, w)
    | _ :: _ => (Raise (RuntimeError "Unknown dataset_type"), w)
    end.
Proof.
  intros Hd. destruct bs as [|b bs]; [done |].
  cbn [submit_jobs]. unfold bind. by rewrite submit_job_unknown.
Qed.

(** The loop over the bundle indices [s, s + 1, ...] when the scheduler
    acknowledges every submission with a parsable answer. *)
Lemma submit_jobs_run self d : forall handles s started w,
  d ∈ configured_datasets ->
  (forall i h, handles !! i = Some h ->
     exists outs,
       bsub_out world (length (bsub_calls w) + i) = Completed outs
       /\ parse_job_id outs = Ok h) ->
  exists w' cmds,
    submit_jobs env world self d (seq s (length handles)) started w
    = (Ok (started ∪ list_to_set handles), w')
    /\ bsub_calls w' = bsub_calls w ++ cmds
    /\ Ok <$> cmds = bundle_command env self d <$> seq s (length handles)
    /\ bjobs_calls w' = bjobs_calls w /\ slept w' = slept w
    /\ tracking w' = tracking w /\ clock_reads w' = clock_reads w.
Proof.
  induction handles as [|h handles IH]; intros s started w Hd Hresp.
  - exists w, []. simpl. rewrite app_nil_r, (right_id_L ∅ (∪)). done.
  - destruct (get_lsf_command_known self d
                (run_name self +:+ "_b_" +:+ Py.str_of_nat s) Hd) as [cmd Hcmd].
    destruct (Hresp 0%nat h eq_refl) as (outs & Hout & Hparse).
    rewrite Nat.add_0_r in Hout.
    cbn [length seq submit_jobs]. unfold bind.
    rewrite (submit_job_known self d s w cmd Hcmd), Hout, Hparse.
    edestruct (IH (S s) (started ∪ {[h]})) as (w' & cmds & Hrun & Hcalls & Hcmds & Hrest);
      [exact Hd | | ].
    2: { exists w', (cmd :: cmds). rewrite Hrun. split.
         { simpl. by rewrite (assoc_L (∪)). }
         split; [by rewrite Hcalls; simpl; rewrite <- app_assoc |].
         split; [|exact Hrest].
         rewrite !fmap_cons, Hcmds. f_equal. by rewrite <- Hcmd. }
    intros i h' Hi. simpl. rewrite length_app. simpl.
    replace (length (bsub_calls w) + 1 + i)%nat
      with (length (bsub_calls w) + S i)%nat by lia.
    by apply Hresp.
Qed.

End Submission.

(** ** Aggregation leaves the scheduler alone *)

Lemma average_metrics_frame world self dataset_type w r w' :
  average_metrics world self dataset_type w = (r, w') ->
  bsub_calls w' = bsub_calls w /\ bjobs_calls w' = bjobs_calls w
  /\ slept w' = slept w /\ log w' = log w
  /\ (forall e, r = Raise e -> w' = w).
Proof.
  unfold average_metrics, load_metrics, bind, get_tracking, lift, raise.
  destruct (tracking w !! dataset_type) as [runs|].
  - destruct (load_runs self runs [] None) as [[metrics m]|e|]; simpl.
    + destruct (aggregate_metrics metrics) as [agg|e|]; simpl.
      * unfold publish, bind, get_tracking, set_tracking. simpl.
        intros [= <- <-]. simpl. by repeat split.
      * intros [= <- <-]. by repeat split.
      * intros [= <- <-]. by repeat split.
    + intros [= <- <-]. by repeat split.
    + intros [= <- <-]. by repeat split.
  - intros [= <- <-]. by repeat split.
Qed.

(** C7: for a [dataset_type] outside the names that command construction
    accepts, [get_lsf_command] raises the configuration error (a
    [RuntimeError]), and it does so before any external call: [submit_job]
    fails with the world untouched, no pipeline for that dataset ever hands
    a command to the scheduler, and one with a positive bundle size stops
    with that error before any scheduler query. *)
Theorem unknown_dataset_fails_fast (env : Env) (world : Oracle)
    (self : Leaderboard) (dataset_type : string) :
  dataset_type ∉ configured_datasets ->
  (forall name,
     get_lsf_command env self dataset_type name
     = Raise (RuntimeError "Unknown dataset_type"))
  /\ (forall b w,
        submit_job env world self dataset_type b w
        = (Raise (RuntimeError "Unknown dataset_type"), w))
  /\ (forall fuel w r w',
        submit_bundle env world fuel self dataset_type w = (r, w') ->
        bsub_calls w' = bsub_calls w)
  /\ (forall fuel w,
        (0 < bundle_size self)%Z ->
        exists w',
          submit_bundle env world fuel self dataset_type w
          = (Raise (RuntimeError "Unknown dataset_type"), w')
          /\ bsub_calls w' = bsub_calls w /\ bjobs_calls w' = bjobs_calls w
          /\ tracking w' = tracking w).
Proof.
  intros Hd. split; [| split; [| split]].
  - intros name. unfold get_lsf_command.
    by rewrite (dataset_root_of_unknown env dataset_type Hd).
  - intros b w. by apply submit_job_unknown.
  - intros fuel w r w'.
    unfold submit_bundle, run_bundle, bind, setup_logger, ret, logger_info.
    simpl. rewrite (submit_jobs_unknown env world self dataset_type _ _ _ Hd).
    destruct (Py.range (bundle_size self)) as [|b bs].
    + simpl.
      match goal with |- context [wait_jobs world fuel dataset_type ∅ ?w1] =>
        destruct (wait_jobs world fuel dataset_type ∅ w1) as [r1 w2] eqn:Hwait
      end.
      apply wait_jobs_frame in Hwait as (Hb & _). simpl in Hb.
      destruct r1 as [[]|e|]; try (by intros [= <- <-]).
      unfold try_except. simpl.
      match goal with |- context [average_metrics world self dataset_type ?w3] =>
        destruct (average_metrics world self dataset_type w3) as [r2 w4] eqn:Hav
      end.
      apply average_metrics_frame in Hav as (Hb' & _). simpl in Hb'.
      destruct r2 as [[]|e|]; intros [= <- <-]; simpl; congruence.
    + by intros [= <- <-].
  - intros fuel w Hsize.
    unfold submit_bundle, run_bundle, bind, setup_logger, ret, logger_info.
    simpl. rewrite (submit_jobs_unknown env world self dataset_type _ _ _ Hd).
    unfold Py.range.
    destruct (Z.to_nat (bundle_size self)) as [|k] eqn:Hk; [lia |].
    simpl. by eexists.
Qed.

Lemma unknown_dataset_fails_fast_witness :
  ("imagenet" ∉ configured_datasets)
  /\ submit_job Demo.env Demo.world Demo.self "imagenet" 0 Demo.w0
     = (Raise (RuntimeError "Unknown dataset_type"), Demo.w0).
Proof.
  assert ("imagenet" ∉ configured_datasets) as H.
  { unfold configured_datasets. rewrite !not_elem_of_cons.
    repeat split; try discriminate. apply not_elem_of_nil. }
  split; [exact H |].
  exact (proj1 (proj2 (unknown_dataset_fails_fast Demo.env Demo.world Demo.self
                         "imagenet" H)) 0%nat Demo.w0).
Defined.

(** C6: for every bundle size [N], when the dataset is known and the
    scheduler acknowledges the [N] submissions with parsable answers, the
    submission loop of [submit_bundle] hands exactly [N] commands to the
    scheduler, those of the bundle indices [0 .. N-1] in this order, and
    the tracked set holds exactly the handles of the answers; when these
    are pairwise distinct the set has exactly [N] elements. *)
Theorem submit_bundle_handles (env : Env) (world : Oracle)
    (self : Leaderboard) (dataset_type : string) (N : nat)
    (handles : list string) (w : World) :
  bundle_size self = Z.of_nat N ->
  dataset_type ∈ configured_datasets ->
  length handles = N ->
  (forall i h, handles !! i = Some h ->
     exists outs,
       bsub_out world (length (bsub_calls w) + i) = Completed outs
       /\ parse_job_id outs = Ok h) ->
  exists w' cmds,
    submit_jobs env world self dataset_type (Py.range (bundle_size self)) ∅ w
    = (Ok (list_to_set handles), w')
    /\ bsub_calls w' = bsub_calls w ++ cmds
    /\ length cmds = N
    /\ Ok <$> cmds = bundle_command env self dataset_type <$> seq 0 N
    /\ (forall h, h ∈ (list_to_set handles : gset string) <-> h ∈ handles)
    /\ (NoDup handles -> size (list_to_set handles : gset string) = N).
Proof.
  intros Hsize Hd Hlen Hresp.
  destruct (submit_jobs_run env world self dataset_type handles 0 ∅ w Hd Hresp)
    as (w' & cmds & Hrun & Hcalls & Hcmds & _).
  exists w', cmds. unfold Py.range. rewrite Hsize, Nat2Z.id, <- Hlen.
  rewrite Hrun, (left_id_L ∅ (∪)).
  split; [done |]. split; [done |]. split.
  { apply (f_equal length) in Hcmds. rewrite !length_fmap, length_seq in Hcmds.
    done. }
  split; [done |]. split.
  - intros h. apply elem_of_list_to_set.
  - intros Hnodup. by apply size_list_to_set.
Qed.

Lemma submit_bundle_handles_witness :
  bundle_size Demo.self = Z.of_nat 3
  /\ NoDup ["100"; "101"; "102"]
  /\ exists w' cmds,
       submit_jobs Demo.env Demo.world Demo.self "tum"
         (Py.range (bundle_size Demo.self)) ∅ Demo.w0
       = (Ok (list_to_set ["100"; "101"; "102"]), w')
       /\ bsub_calls w' = bsub_calls Demo.w0 ++ cmds
       /\ length cmds = 3%nat
       /\ Ok <$> cmds = bundle_command Demo.env Demo.self "tum" <$> seq 0 3
       /\ (forall h, h ∈ (list_to_set ["100"; "101"; "102"] : gset string)
                     <-> h ∈ ["100"; "101"; "102"])
       /\ (NoDup ["100"; "101"; "102"]
           -> size (list_to_set ["100"; "101"; "102"] : gset string) = 3%nat).
Proof.
  split; [reflexivity |]. split.
  { repeat constructor; rewrite ?elem_of_cons, ?elem_of_nil; intuition discriminate. }
  apply (submit_bundle_handles Demo.env Demo.world Demo.self "tum" 3
           ["100"; "101"; "102"] Demo.w0).
  - reflexivity.
  - unfold configured_datasets. rewrite !elem_of_cons. tauto.
  - reflexivity.
  - intros [|[|[|i]]] h [= <-]; eexists; split; reflexivity.
Defined.

(** ** Grouping the metrics by key *)

Section Grouping.

Context {V : Type}.

Implicit Types (k : string) (l : list (string * V)).

(** Among items with distinct keys, at most one has the key [k]. *)
Lemma items_with_key l k :
  NoDup l.*1 ->
  snd <$> filter (fun kv => kv.1 = k) l
  = option_list ((list_to_map l : gmap string V) !! k).
Proof.
  induction l as [|[k0 v0] l IH]; intros Hnd; [done |].
  apply NoDup_cons in Hnd as [Hk0 Hnd]. specialize (IH Hnd).
  cbn [list_to_map foldr]. simpl in Hk0.
  destruct (decide (k0 = k)) as [->|Hne].
  - rewrite filter_cons_True by done. rewrite lookup_insert_eq, fmap_cons, IH.
    by rewrite (not_elem_of_list_to_map_1 _ _ Hk0).
  - rewrite filter_cons_False by done. by rewrite lookup_insert_ne.
Qed.

Lemma items_of_map (m : gmap string V) k :
  snd <$> filter (fun kv => kv.1 = k) (map_to_list m) = option_list (m !! k).
Proof.
  rewrite items_with_key by apply NoDup_fst_map_to_list.
  by rewrite list_to_map_to_list.
Qed.

End Grouping.

Section Aggregation.

Implicit Types (k : string) (metric : gmap string Np.float)
  (metrics : list (gmap string Np.float))
  (aggregated : gmap string (list Np.float)).

(** The inner loop: the list under an existing key grows by the items of
    that key; no key is added. *)
Lemma foldl_get_append (l : list (string * Np.float)) : forall aggregated k,
  foldl get_append aggregated l !! k
  = (fun vs => vs ++ (snd <$> filter (fun kv => kv.1 = k) l))
      <$> aggregated !! k.
Proof.
  induction l as [|[k0 v0] l IH]; intros aggregated k.
  - simpl. destruct (aggregated !! k); simpl; [by rewrite app_nil_r | done].
  - cbn [foldl]. rewrite IH. unfold get_append. simpl.
    destruct (decide (k0 = k)) as [->|Hne].
    + rewrite filter_cons_True by done.
      destruct (aggregated !! k) as [vs|] eqn:Hk.
      * rewrite lookup_insert_eq. simpl. by rewrite <- app_assoc.
      * by rewrite Hk.
    + rewrite filter_cons_False by done.
      destruct (aggregated !! k0) as [vs0|]; [|done].
      by rewrite lookup_insert_ne.
Qed.

Lemma values_of_cons k metric metrics :
  values_of k (metric :: metrics) = option_list (metric !! k) ++ values_of k metrics.
Proof. unfold values_of. simpl. by destruct (metric !! k). Qed.

(** The outer loop. *)
Lemma foldl_records metrics : forall aggregated k,
  foldl (fun aggregated metric =>
           foldl get_append aggregated (map_to_list metric))
        aggregated metrics !! k
  = (fun vs => vs ++ values_of k metrics) <$> aggregated !! k.
Proof.
  induction metrics as [|metric metrics IH]; intros aggregated k.
  - simpl. destruct (aggregated !! k); simpl; [by rewrite app_nil_r | done].
  - cbn [foldl]. rewrite IH, foldl_get_append, items_of_map, values_of_cons.
    destruct (aggregated !! k); simpl; [by rewrite <- app_assoc | done].
Qed.

Lemma aggregate_metrics_lookup first rest aggregated k :
  aggregate_metrics (first :: rest) = Ok aggregated ->
  aggregated !! k
  = if decide (k ∈ dom first) then Some (values_of k (first :: rest)) else None.
Proof.
  unfold aggregate_metrics. intros [= <-].
  rewrite foldl_records, foldl_get_append, items_of_map, lookup_fmap.
  rewrite values_of_cons.
  destruct (decide (k ∈ dom first)) as [Hin|Hout].
  - apply elem_of_dom in Hin as [v Hv]. by rewrite Hv.
  - apply not_elem_of_dom in Hout. by rewrite Hout.
Qed.

End Aggregation.

(** C3: for a non-empty list of metric records, [aggregate_metrics]
    returns a mapping whose keys are exactly the keys of the first record;
    under each of them stand the values of that key from every record that
    has it, in record order; a key that only later records have is not in
    the result.  (On the empty list, [metrics[0]] raises.) *)
Theorem aggregate_metrics_first_keys
    (first : gmap string Np.float) (rest : list (gmap string Np.float)) :
  exists aggregated,
    aggregate_metrics (first :: rest) = Ok aggregated
    /\ dom aggregated = dom first
    /\ (forall k, k ∈ dom first ->
          aggregated !! k = Some (omap (fun m => m !! k) (first :: rest)))
    /\ (forall k later,
          later ∈ rest -> is_Some (later !! k) -> k ∉ dom first ->
          aggregated !! k = None).
Proof.
  destruct (aggregate_metrics (first :: rest)) as [aggregated|e|] eqn:Hagg;
    [|discriminate|discriminate].
  exists aggregated. split; [done |].
  pose proof (fun k => aggregate_metrics_lookup first rest aggregated k Hagg)
    as Hlookup.
  split; [| split].
  - apply set_eq. intros k. rewrite (elem_of_dom aggregated), Hlookup.
    destruct (decide (k ∈ dom first)) as [Hin|Hout].
    + split; [done | by eexists].
    + split; [by intros [? ?] | done].
  - intros k Hin. rewrite Hlookup. by rewrite decide_True.
  - intros k later _ _ Hout. rewrite Hlookup. by rewrite decide_False.
Qed.

(** ** The summary *)

Section Summary.

Context {V W : Type}.
Variable keep : string -> bool.
Variable key : string -> string.
Variable val : V -> W.
Hypothesis key_inj : forall k1 k2, key k1 = key k2 -> k1 = k2.

Local Abbreviation step :=
  (fun (acc : gmap string W) (kv : string * V) =>
     if keep kv.1 then <[ key kv.1 := val kv.2 ]> acc else acc).

(** The comprehension loop over items with distinct keys. *)
Lemma foldl_comp_lookup (l : list (string * V)) : forall acc s w,
  NoDup l.*1 ->
  foldl step acc l !! s = Some w
  <-> (exists k v, (k, v) ∈ l /\ keep k = true /\ s = key k /\ w = val v)
      \/ ((forall k v, (k, v) ∈ l -> keep k = true -> s ≠ key k)
          /\ acc !! s = Some w).
Proof.
  induction l as [|[k0 v0] l IH]; intros acc s w Hnd.
  - simpl. split.
    + intros H. right. split; [|done]. intros k v Hin. by apply elem_of_nil in Hin.
    + intros [(k & v & Hin & _)|[_ H]]; [by apply elem_of_nil in Hin | done].
  - apply NoDup_cons in Hnd as [Hk0 Hnd]. simpl in Hk0.
    cbn [foldl]. rewrite (IH _ s w Hnd). cbn beta. simpl fst. simpl snd.
    split.
    + intros [(k & v & Hin & Hkeep & -> & ->)|[Hnone Hacc]].
      * left. exists k, v. split; [by apply elem_of_cons; right | done].
      * destruct (keep k0) eqn:Hk.
        -- destruct (decide (s = key k0)) as [->|Hne].
           ++ rewrite lookup_insert_eq in Hacc. injection Hacc as <-.
              left. exists k0, v0. split; [by apply elem_of_cons; left | done].
           ++ rewrite lookup_insert_ne in Hacc by done.
              right. split; [|done]. intros k v [[= -> ->]|Hin]%elem_of_cons.
              ** done.
              ** by apply (Hnone k v).
        -- right. split; [|done]. intros k v [[= -> ->]|Hin]%elem_of_cons.
           ++ by rewrite Hk.
           ++ by apply (Hnone k v).
    + intros [(k & v & [[= -> ->]|Hin]%elem_of_cons & Hkeep & -> & ->)|[Hnone Hacc]].
      * right. rewrite Hkeep, lookup_insert_eq. split; [|done].
        intros k v Hin _ Heq. apply key_inj in Heq as ->.
        apply Hk0. apply list_elem_of_fmap. by exists (k, v).
      * left. by exists k, v.
      * right. split.
        -- intros k v Hin. apply (Hnone k v). by apply elem_of_cons; right.
        -- destruct (keep k0) eqn:Hk; [|done].
           rewrite lookup_insert_ne; [done |].
           intros Heq. eapply (Hnone k0 v0); [by apply elem_of_cons; left | done |].
           done.
Qed.

(** The entries of a comprehension with an injective key expression. *)
Lemma dict_comp_lookup (d : gmap string V) s w :
  dict_comp keep key val d !! s = Some w
  <-> exists k v, d !! k = Some v /\ keep k = true /\ s = key k /\ w = val v.
Proof.
  unfold dict_comp.
  rewrite foldl_comp_lookup by apply NoDup_fst_map_to_list.
  split.
  - intros [(k & v & Hin & H)|[_ H]]; [|by rewrite lookup_empty in H].
    exists k, v. by rewrite <- elem_of_map_to_list.
  - intros (k & v & Hkv & H). left. exists k, v.
    by rewrite elem_of_map_to_list.
Qed.

End Summary.

Section SummaryKeys.

Implicit Types (k s : string) (aggregated : gmap string (list Np.float)).

Lemma mean_key_inj k1 k2 : k1 +:+ "_mean" = k2 +:+ "_mean" -> k1 = k2.
Proof. apply string_app_inj_r. Qed.

Lemma var_key_inj k1 k2 : k1 +:+ "_var" = k2 +:+ "_var" -> k1 = k2.
Proof. apply string_app_inj_r. Qed.

Lemma mean_key_not_var k1 k2 : k1 +:+ "_mean" ≠ k2 +:+ "_var".
Proof.
  intros H. apply (f_equal last_char) in H.
  rewrite !last_char_app in H by done. discriminate.
Qed.

(** The metrics of the summary run, entry by entry. *)
Lemma summary_lookup self t model_name n aggregated s x :
  run_metrics (summary_run self t model_name n
                 (metrics_mean_of aggregated) (metrics_var_of aggregated)) !! s
  = Some x
  <-> exists k vs,
        aggregated !! k = Some vs /\ Py.contains "test" k = true
        /\ ((s = k +:+ "_mean" /\ x = Np.mean vs)
            \/ (s = k +:+ "_var" /\ x = Np.var vs)).
Proof.
  cbn [summary_run run_metrics]. rewrite (right_id_L ∅ (∪)).
  rewrite lookup_union_Some_raw. unfold metrics_var_of, metrics_mean_of.
  split.
  - intros [H|[_ H]].
    + apply (dict_comp_lookup _ _ _ var_key_inj) in H
        as (k & vs & Hk & Htest & -> & ->).
      exists k, vs. by auto.
    + apply (dict_comp_lookup _ _ _ mean_key_inj) in H
        as (k & vs & Hk & Htest & -> & ->).
      exists k, vs. by auto.
  - intros (k & vs & Hk & Htest & [[-> ->]|[-> ->]]).
    + right. split.
      * destruct (dict_comp _ _ Np.var aggregated !! (k +:+ "_mean"))
          as [y|] eqn:Hy; [|done].
        apply (dict_comp_lookup _ _ _ var_key_inj) in Hy
          as (k' & vs' & _ & _ & Heq & _).
        by apply mean_key_not_var in Heq.
      * apply (dict_comp_lookup _ _ _ mean_key_inj). by exists k, vs.
    + left. apply (dict_comp_lookup _ _ _ var_key_inj). by exists k, vs.
Qed.

End SummaryKeys.

(** C4: the metrics of the published summary are, for every aggregated key
    whose name contains [test], its mean under the key followed by [_mean]
    and its variance under the key followed by [_var], and nothing else: a
    key without [test] has no entry, neither as it is nor with a suffix.
    On the three records of the example the summary holds [test_a_mean] =
    2, [test_a_var] = 2/3 (0.667 within a thousandth), [test_b_mean] = 20
    and [test_b_var] = 200/3 (66.67 within a hundredth) and no other key;
    with a [train_loss] in the records, no entry derives from it. *)
Theorem summary_test_keys (self : Leaderboard) (t : string)
    (model_name : option string) (n : nat)
    (aggregated : gmap string (list Np.float)) :
  let summary :=
    run_metrics (summary_run self t model_name n
                   (metrics_mean_of aggregated) (metrics_var_of aggregated)) in
  (forall k vs,
     aggregated !! k = Some vs -> Py.contains "test" k = true ->
     summary !! (k +:+ "_mean") = Some (Np.mean vs)
     /\ summary !! (k +:+ "_var") = Some (Np.var vs))
  /\ (forall s,
        is_Some (summary !! s) ->
        exists k, k ∈ dom aggregated /\ Py.contains "test" k = true
                  /\ (s = k +:+ "_mean" \/ s = k +:+ "_var"))
  /\ (forall k,
        Py.contains "test" k = false ->
        summary !! k = None /\ summary !! (k +:+ "_mean") = None
        /\ summary !! (k +:+ "_var") = None)
  /\ (exists w' r,
        average_metrics Demo.world Demo.self "tum" Demo.w0 = (Ok tt, w')
        /\ tracking w' !! "tum" = Some (r :: Demo.runs)
        /\ (exists x, run_metrics r !! "test_a_mean" = Some x
                      /\ Np.eqv x (Np.Fin 2))
        /\ (exists x, run_metrics r !! "test_a_var" = Some x
                      /\ Np.eqv x (Np.Fin (2 # 3))
                      /\ Np.close (1 # 1000) x (667 # 1000))
        /\ (exists x, run_metrics r !! "test_b_mean" = Some x
                      /\ Np.eqv x (Np.Fin 20))
        /\ (exists x, run_metrics r !! "test_b_var" = Some x
                      /\ Np.eqv x (Np.Fin (200 # 3))
                      /\ Np.close (1 # 100) x (6667 # 100))
        /\ dom (run_metrics r)
           = list_to_set ["test_a_mean"; "test_a_var"; "test_b_mean"; "test_b_var"])
  /\ (exists w' r,
        average_metrics Demo.world Demo.self "tum" Demo.w_loss = (Ok tt, w')
        /\ tracking w' !! "tum" = Some (r :: Demo.runs_with_loss)
        /\ run_metrics r !! "train_loss" = None
        /\ run_metrics r !! "train_loss_mean" = None
        /\ run_metrics r !! "train_loss_var" = None
        /\ dom (run_metrics r)
           = list_to_set ["test_a_mean"; "test_a_var"; "test_b_mean"; "test_b_var"]).
Proof.
  intros summary.
  assert (forall s, is_Some (summary !! s) ->
            exists k, k ∈ dom aggregated /\ Py.contains "test" k = true
                      /\ (s = k +:+ "_mean" \/ s = k +:+ "_var")) as Honly.
  { intros s [x Hx]. apply summary_lookup in Hx as (k & vs & Hk & Htest & Hs).
    exists k. split; [by apply elem_of_dom; eexists |]. split; [done |].
    destruct Hs as [[-> _]|[-> _]]; by auto. }
  split; [| split; [exact Honly | split; [| split]]].
  - intros k vs Hk Htest. split; apply summary_lookup; exists k, vs; by auto.
  - intros k Hno.
    assert (forall s, (forall k', Py.contains "test" k' = true ->
                         s ≠ k' +:+ "_mean" /\ s ≠ k' +:+ "_var") ->
                      summary !! s = None) as Hnone.
    { intros s Hs. destruct (summary !! s) as [x|] eqn:Hx; [|done].
      destruct (Honly s) as (k' & _ & Htest & Heq); [by eexists |].
      destruct (Hs k' Htest) as [H1 H2]. by destruct Heq. }
    split; [| split]; apply Hnone; intros k' Htest; split; intros Heq.
    + rewrite Heq, (contains_app_l _ _ _ Htest) in Hno. discriminate.
    + rewrite Heq, (contains_app_l _ _ _ Htest) in Hno. discriminate.
    + apply mean_key_inj in Heq as ->. congruence.
    + by apply mean_key_not_var in Heq.
    + symmetry in Heq. by apply mean_key_not_var in Heq.
    + apply var_key_inj in Heq as ->. congruence.
  - eexists _, _. split; [vm_compute; reflexivity |].
    split; [vm_compute; reflexivity |].
    split; [eexists; split; [vm_compute; reflexivity | vm_compute; reflexivity] |].
    split; [eexists; split; [vm_compute; reflexivity |
                             split; vm_compute; reflexivity] |].
    split; [eexists; split; [vm_compute; reflexivity | vm_compute; reflexivity] |].
    split; [eexists; split; [vm_compute; reflexivity |
                             split; vm_compute; reflexivity] |].
    vm_compute; reflexivity.
  - eexists _, _. split; [vm_compute; reflexivity |].
    split; [vm_compute; reflexivity |].
    repeat split; vm_compute; reflexivity.
Qed.

(** ** Aggregation without a run family *)

Lemma filter_none {A} (P : A -> Prop) `{forall x, Decision (P x)} (l : list A) :
  Forall (fun x => ~ P x) l -> filter P l = [].
Proof.
  induction 1 as [|x l Hx _ IH]; [done |].
  by rewrite filter_cons_False.
Qed.

(** Whatever [aggregate_metrics] returns has no empty value sequence: the
    statistics of the summary are never taken over nothing. *)
Lemma aggregate_metrics_nonempty metrics aggregated k vs :
  aggregate_metrics metrics = Ok aggregated ->
  aggregated !! k = Some vs -> vs ≠ [].
Proof.
  destruct metrics as [|first rest]; [discriminate |].
  intros Hagg. rewrite (aggregate_metrics_lookup first rest aggregated k Hagg).
  destruct (decide (k ∈ dom first)) as [Hin|]; [|discriminate].
  apply elem_of_dom in Hin as [v Hv].
  intros [= <-]. unfold values_of. simpl. by rewrite Hv.
Qed.

(** C2: when the experiment of [dataset_type] exists and none of its runs
    (each with a [run_name] parameter) has a base run name equal to the
    configured [run_name], the aggregation fails: [metrics[0]] raises
    [IndexError] on the empty family, the failure the design calls
    NoMatchingRuns.  It fails before any statistic is computed and before
    anything is published: the world, and the tracking store with it, is
    exactly as it was.  And whenever a summary is published, every value
    sequence behind it is non-empty: its mean is NaN only when its sum
    is, never for want of values. *)
Theorem no_matching_runs_fails (world : Oracle) (self : Leaderboard)
    (dataset_type : string) (w : World) (runs : list Run) :
  tracking w !! dataset_type = Some runs ->
  Forall (fun r => exists recorded,
            run_params r !! "run_name" = Some recorded
            /\ base_run_name recorded ≠ run_name self) runs ->
  load_metrics self dataset_type w = (Ok ([], None), w)
  /\ aggregate_metrics [] = Raise IndexError
  /\ average_metrics world self dataset_type w = (Raise IndexError, w)
  /\ (forall metrics aggregated k vs,
        aggregate_metrics metrics = Ok aggregated ->
        aggregated !! k = Some vs ->
        vs ≠ [] /\ Np.is_nan (Np.mean vs) = Np.is_nan (Np.sum vs)).
Proof.
  intros Hruns Hnone.
  assert (load_runs self runs [] None = Ok ([], None)) as Hload.
  { clear Hruns. induction Hnone as [|r runs (recorded & Hrec & Hbase) _ IH];
      [done |].
    simpl. rewrite Hrec.
    destruct (String.eqb_spec (run_name self) (base_run_name recorded));
      [congruence | exact IH]. }
  assert (load_metrics self dataset_type w = (Ok ([], None), w)) as Hmetrics.
  { unfold load_metrics, bind, get_tracking, lift. by rewrite Hruns, Hload. }
  split; [done |]. split; [done |]. split.
  - unfold average_metrics, bind. by rewrite Hmetrics.
  - intros metrics aggregated k vs Hagg Hk.
    pose proof (aggregate_metrics_nonempty _ _ _ _ Hagg Hk) as Hne.
    split; [done |]. unfold Np.mean, Np.div_count.
    destruct vs as [|v vs]; [done |]. simpl length.
    by destruct (Np.sum (v :: vs)).
Qed.

Lemma no_matching_runs_fails_witness :
  average_metrics Demo.world Demo.self "tum" Demo.w_other
  = (Raise IndexError, Demo.w_other).
Proof.
  refine (proj1 (proj2 (proj2
    (no_matching_runs_fails Demo.world Demo.self "tum" Demo.w_other
       [ Demo.run "other_b_0" (Demo.record 1 10);
         Demo.run "exp1_b_3" (Demo.record 2 20) ] _ _)))).
  - reflexivity.
  - repeat constructor.
    + exists "other_b_0". split; [reflexivity | discriminate].
    + exists "exp1_b_3". split; [reflexivity | discriminate].
Defined.

(** ** The per-dataset boundary *)

Section Boundary.

Variable env : Env.
Variable world : Oracle.

Implicit Types (self : Leaderboard) (w : World).

(** Submitting touches neither the tracking store nor the status queries. *)
Lemma submit_job_frame self d b w r w' :
  submit_job env world self d b w = (r, w') ->
  tracking w' = tracking w /\ bjobs_calls w' = bjobs_calls w.
Proof.
  unfold submit_job, bind, lift, logger_info, popen_bsub.
  destruct (get_lsf_command env self d _) as [cmd|e|]; simpl.
  - destruct (bsub_out world (length (bsub_calls w))) as [outs|].
    + destruct (parse_job_id outs); by intros [= <- <-].
    + by intros [= <- <-].
  - by intros [= <- <-].
  - by intros [= <- <-].
Qed.

Lemma submit_jobs_frame self d bs : forall started w r w',
  submit_jobs env world self d bs started w = (r, w') ->
  tracking w' = tracking w /\ bjobs_calls w' = bjobs_calls w.
Proof.
  induction bs as [|b bs IH]; intros started w r w'.
  - by intros [= <- <-].
  - cbn [submit_jobs]. unfold bind.
    destruct (submit_job env world self d b w) as [r1 w1] eqn:Hjob.
    apply submit_job_frame in Hjob as [Ht Hq].
    destruct r1 as [job_id|e|].
    + intros Hrest. apply IH in Hrest as [Ht' Hq']. split; congruence.
    + by intros [= <- <-].
    + by intros [= <- <-].
Qed.

Lemma run_bundle_frame fuel self d w r w' :
  run_bundle env world fuel self d w = (r, w') -> tracking w' = tracking w.
Proof.
  unfold run_bundle, bind, setup_logger, ret, logger_info. simpl.
  match goal with |- context [submit_jobs env world self d ?bs ?s ?w0] =>
    destruct (submit_jobs env world self d bs s w0) as [r1 w1] eqn:Hsub
  end.
  apply submit_jobs_frame in Hsub as [Ht _]. simpl in Ht.
  destruct r1 as [started|e|]; try (by intros [= <- <-]).
  simpl.
  match goal with |- context [wait_jobs world fuel d started ?w0] =>
    destruct (wait_jobs world fuel d started w0) as [r2 w2] eqn:Hwait
  end.
  apply wait_jobs_frame in Hwait as (_ & Ht' & _). simpl in Ht'.
  destruct r2 as [[]|e|]; intros [= <- <-]; simpl; congruence.
Qed.

(** The handler of [submit_bundle] ends well whatever the aggregation
    raised. *)
Lemma aggregation_step self d w :
  match average_metrics world self d w with
  | (Ok _, w') =>
      try_except (average_metrics world self d)
        (fun e => logger_info (LogException e)) w = (Ok tt, w')
  | (Raise e, _) =>
      try_except (average_metrics world self d)
        (fun e => logger_info (LogException e)) w
      = (Ok tt,
         mkWorld (bsub_calls w) (bjobs_calls w) (slept w)
           (log w ++ [LogException e]) (stdout w) (clock_reads w) (tracking w))
  | (OutOfFuel, _) => False
  end.
Proof.
  unfold try_except.
  destruct (average_metrics world self d w) as [[[]|e|] w'] eqn:Hav.
  - done.
  - apply average_metrics_frame in Hav as (_ & _ & _ & _ & Hsame).
    by rewrite (Hsame e eq_refl).
  - revert Hav. unfold average_metrics, load_metrics, bind, get_tracking, lift, raise.
    destruct (tracking w !! d) as [runs|]; [|discriminate].
    pose proof (load_runs_spec self runs [] None) as Hspec.
    destruct (load_runs self runs [] None) as [[metrics m]|e|]; simpl;
      [|discriminate|done].
    destruct metrics; discriminate.
Qed.

End Boundary.

(** C9: an exception raised by the aggregation step of a dataset pipeline
    is caught in [submit_bundle] and logged: after the jobs were submitted
    and waited for, [submit_bundle] returns normally with the exception as
    the last log record, and the tracking store is the one it started from
    (no summary record for that dataset).  The only exceptions that leave
    [submit_bundle] are those of submission.  In the pool, taken one task
    after the other, the tasks of the sibling datasets run as they would
    have, from a world that differs by log records and scheduler calls
    only. *)
Theorem aggregation_failure_contained (env : Env) (world : Oracle)
    (fuel : nat) (self : Leaderboard) (dataset_type : string)
    (w w1 w2 : World) (e : exn) :
  run_bundle env world fuel self dataset_type w = (Ok tt, w1) ->
  average_metrics world self dataset_type w1 = (Raise e, w2) ->
  let w' := mkWorld (bsub_calls w1) (bjobs_calls w1) (slept w1)
              (log w1 ++ [LogException e]) (stdout w1) (clock_reads w1)
              (tracking w1) in
  submit_bundle env world fuel self dataset_type w = (Ok tt, w')
  /\ last (log w') = Some (LogException e)
  /\ tracking w' = tracking w
  /\ (forall e' w'',
        submit_bundle env world fuel self dataset_type w ≠ (Raise e', w''))
  /\ (forall siblings,
        run_pool env world fuel self (dataset_type :: siblings) w
        = run_pool env world fuel self siblings w')
  /\ (forall fuel' self' d' w0 e' w0',
        submit_bundle env world fuel' self' d' w0 = (Raise e', w0') ->
        run_bundle env world fuel' self' d' w0 = (Raise e', w0')).
Proof.
  intros Hrun Hav w'.
  assert (submit_bundle env world fuel self dataset_type w = (Ok tt, w'))
    as Hbundle.
  { unfold submit_bundle, bind. rewrite Hrun.
    pose proof (aggregation_step world self dataset_type w1) as Hstep.
    by rewrite Hav in Hstep. }
  split; [exact Hbundle |]. split; [| split; [| split; [| split]]].
  - subst w'. simpl. by rewrite last_snoc.
  - subst w'. simpl. by apply run_bundle_frame in Hrun.
  - intros e' w''. by rewrite Hbundle.
  - intros siblings. cbn [run_pool]. unfold bind, apply_async, try_except.
    by rewrite Hbundle.
  - intros fuel' self' d' w0 e' w0'. unfold submit_bundle, bind.
    destruct (run_bundle env world fuel' self' d' w0) as [[[]|e0|] w3]; [|done|done].
    pose proof (aggregation_step world self' d' w3) as Hstep.
    destruct (average_metrics world self' d' w3) as [[[]|e0|] w4];
      [by rewrite Hstep | by rewrite Hstep | done].
Qed.

Lemma aggregation_failure_contained_witness :
  exists w1,
    run_bundle Demo.env Demo.world 5 Demo.self "kitti_4/6" Demo.w0 = (Ok tt, w1)
    /\ average_metrics Demo.world Demo.self "kitti_4/6" w1
       = (Raise AttributeError, w1)
    /\ (submit_bundle Demo.env Demo.world 5 Demo.self "kitti_4/6" Demo.w0).1
       = Ok tt
    /\ tracking
         (submit_bundle Demo.env Demo.world 5 Demo.self "kitti_4/6" Demo.w0).2
       = tracking Demo.w0.
Proof.
  set (w1 := (run_bundle Demo.env Demo.world 5 Demo.self "kitti_4/6" Demo.w0).2).
  assert (run_bundle Demo.env Demo.world 5 Demo.self "kitti_4/6" Demo.w0
          = (Ok tt, w1)) as Hrun by (vm_compute; reflexivity).
  assert (average_metrics Demo.world Demo.self "kitti_4/6" w1
          = (Raise AttributeError, w1)) as Hav by (vm_compute; reflexivity).
  exists w1. split; [exact Hrun |]. split; [exact Hav |].
  destruct (aggregation_failure_contained Demo.env Demo.world 5 Demo.self
              "kitti_4/6" Demo.w0 w1 w1 AttributeError Hrun Hav)
    as (Hbundle & _ & Htrack & _).
  rewrite Hbundle. split; [reflexivity | exact Htrack].
Defined.

(** ** Parsing the answer of the scheduler *)

Section Parsing.

Implicit Types (s t : string) (c q : ascii).

Lemma has_char_app c s t :
  Py.has_char c (s +:+ t) = Py.has_char c s || Py.has_char c t.
Proof.
  induction s as [|d s IH]; simpl; [done |]. by rewrite IH, orb_assoc.
Qed.

Lemma repr_quote_cases s : Py.repr_quote s = Py.squote \/ Py.repr_quote s = Py.dquote.
Proof. unfold Py.repr_quote. destruct (_ && _); by auto. Qed.

(** An escape sequence holds a space only when it is the space itself. *)
Lemma repr_byte_space q c :
  q = Py.squote \/ q = Py.dquote ->
  Py.has_char " " (Py.repr_byte q c) = Ascii.eqb c " ".
Proof.
  intros [->| ->];
    destruct c as [[] [] [] [] [] [] [] []]; vm_compute; reflexivity.
Qed.

Lemma repr_byte_plain q c :
  q = Py.squote \/ q = Py.dquote ->
  plain_char c = true -> Py.repr_byte q c = String c "".
Proof.
  intros [->| ->];
    destruct c as [[] [] [] [] [] [] [] []]; vm_compute;
    first [reflexivity | discriminate].
Qed.

Lemma plain_char_not_space c :
  plain_char c = true -> is_space c = false /\ Ascii.eqb c " " = false.
Proof.
  destruct c as [[] [] [] [] [] [] [] []]; vm_compute;
    first [discriminate | by split].
Qed.

Lemma repr_body_app q s t :
  Py.repr_body q (s +:+ t) = Py.repr_body q s +:+ Py.repr_body q t.
Proof.
  induction s as [|c s IH]; simpl; [done |].
  by rewrite IH, string_app_assoc.
Qed.

Lemma repr_body_space q s :
  q = Py.squote \/ q = Py.dquote ->
  Py.has_char " " (Py.repr_body q s) = Py.has_char " " s.
Proof.
  intros Hq. induction s as [|c s IH]; simpl; [done |].
  by rewrite has_char_app, repr_byte_space, IH.
Qed.

Lemma repr_body_plain q s :
  q = Py.squote \/ q = Py.dquote ->
  plain s = true -> Py.repr_body q s = s.
Proof.
  intros Hq. induction s as [|c s IH]; simpl; [done |].
  intros [Hc Hs]%andb_true_iff. by rewrite repr_byte_plain, IH.
Qed.

Lemma plain_no_space s : plain s = true -> Py.has_char " " s = false.
Proof.
  induction s as [|c s IH]; simpl; [done |].
  intros [Hc Hs]%andb_true_iff.
  destruct (plain_char_not_space c Hc) as [_ ->]. by rewrite IH.
Qed.

(** The text that [str] makes of the bytes has a space exactly when the
    bytes have one. *)
Lemma str_of_bytes_space s :
  Py.has_char " " (Py.str_of_bytes s) = Py.has_char " " s.
Proof.
  unfold Py.str_of_bytes. cbn zeta.
  pose proof (repr_quote_cases s) as Hq.
  cbn [Py.has_char]. rewrite has_char_app, (repr_body_space _ _ Hq).
  cbn [Py.has_char].
  destruct Hq as [-> | ->]; simpl; by rewrite !orb_false_r.
Qed.

(** A string with a separator splits at its first one. *)
Lemma split_at_first sep s :
  Py.has_char sep s = true ->
  exists a b, s = a +:+ String sep b /\ Py.has_char sep a = false.
Proof.
  induction s as [|c s IH]; simpl; [done |].
  destruct (Ascii.eqb_spec c sep) as [->|Hne]; simpl.
  - intros _. by exists "", s.
  - intros (a & b & -> & Ha)%IH. exists (String c a), b. split; [done |].
    simpl. rewrite Ha. by apply Ascii.eqb_neq in Hne as ->.
Qed.

Lemma split_second sep s :
  match Py.split sep s !! 1%nat with
  | Some _ => Py.has_char sep s = true
  | None => Py.has_char sep s = false
  end.
Proof.
  destruct (Py.has_char sep s) eqn:Hs.
  - destruct (split_at_first sep s Hs) as (a & b & -> & Ha).
    rewrite split_app, (split_no_sep sep a Ha).
    pose proof (split_nonempty sep b). by destruct (Py.split sep b).
  - by rewrite (split_no_sep sep s Hs).
Qed.

(** No layout is checked: the parse fails exactly on bytes without a
    space. *)
Lemma parse_job_id_total outs :
  if Py.has_char " " outs
  then exists handle, parse_job_id outs = Ok handle
  else parse_job_id outs = Raise IndexError.
Proof.
  unfold parse_job_id.
  pose proof (split_second " " (Py.str_of_bytes outs)) as H.
  rewrite str_of_bytes_space in H.
  destruct (Py.split " " (Py.str_of_bytes outs) !! 1%nat) as [token|];
    rewrite H; [by eexists | done].
Qed.

(** The second token when it is followed by a space and needs no escape. *)
Lemma parse_job_id_second t0 t1 rest :
  Py.has_char " " t0 = false -> plain t1 = true ->
  parse_job_id (t0 +:+ String " " (t1 +:+ String " " rest))
  = Ok (Py.strip_ends t1).
Proof.
  intros H0 H1. unfold parse_job_id, Py.str_of_bytes. cbn zeta.
  set (outs := t0 +:+ String " " (t1 +:+ String " " rest)).
  pose proof (repr_quote_cases outs) as Hq.
  set (q := Py.repr_quote outs) in *. subst outs.
  rewrite !repr_body_app.
  assert (Py.repr_body q (String " " (t1 +:+ String " " rest))
          = String " " (t1 +:+ String " " (Py.repr_body q rest))) as ->.
  { cbn [Py.repr_body].
    assert (Py.repr_byte q " " = " ") as ->
      by (destruct Hq as [-> | ->]; reflexivity).
    simpl. rewrite repr_body_app, (repr_body_plain q t1 Hq H1).
    cbn [Py.repr_body].
    assert (Py.repr_byte q " " = " ") as ->
      by (destruct Hq as [-> | ->]; reflexivity).
    done. }
  match goal with |- context [Py.split " " ?full] =>
    assert (full = String "b" (String q (Py.repr_body q t0))
                   +:+ String " " (t1 +:+ String " "
                                     (Py.repr_body q rest +:+ String q "")))
      as ->
  end.
  { simpl. rewrite string_app_assoc. simpl. rewrite string_app_assoc. done. }
  rewrite split_app, split_app.
  rewrite (split_no_sep " " t1 (plain_no_space t1 H1)).
  rewrite split_no_sep.
  - done.
  - cbn [Py.has_char]. rewrite (repr_body_space q t0 Hq), H0.
    destruct Hq as [-> | ->]; reflexivity.
Qed.

End Parsing.

Section Layout.

Implicit Types (s t cur : string).

Lemma plain_no_whitespace t cur s :
  plain t = true -> ws_tokens_from cur (t +:+ s) = ws_tokens_from (cur +:+ t) s.
Proof.
  revert cur. induction t as [|c t IH]; intros cur; simpl.
  - by rewrite string_app_nil_r.
  - intros [Hc Ht]%andb_true_iff.
    destruct (plain_char_not_space c Hc) as [-> _].
    rewrite (IH _ Ht), string_app_assoc. done.
Qed.

Lemma ws_tokens_from_space cur s :
  cur ≠ "" -> ws_tokens_from cur (String " " s) = cur :: ws_tokens_from "" s.
Proof.
  intros Hcur. simpl. change (is_space " ") with true. cbn iota.
  by destruct (String.eqb_spec cur "").
Qed.

(** On an answer of the described layout the first two whitespace tokens
    are the two leading space-delimited ones. *)
Lemma ws_tokens_second t0 t1 rest :
  plain t0 = true -> t0 ≠ "" -> plain t1 = true -> t1 ≠ "" ->
  ws_tokens (t0 +:+ String " " (t1 +:+ String " " rest)) !! 1%nat = Some t1.
Proof.
  intros H0 Hne0 H1 Hne1. unfold ws_tokens.
  rewrite (plain_no_whitespace t0 "" _ H0). simpl (_ +:+ t0).
  rewrite (ws_tokens_from_space t0 _ Hne0).
  rewrite (plain_no_whitespace t1 "" _ H1). simpl (_ +:+ t1).
  by rewrite (ws_tokens_from_space t1 _ Hne1).
Qed.

Lemma parse_job_id_as_described t0 t1 rest :
  plain t0 = true -> t0 ≠ "" -> plain t1 = true ->
  (2 <= String.length t1)%nat ->
  parse_job_id (t0 +:+ String " " (t1 +:+ String " " rest))
  = spec_job_handle (t0 +:+ String " " (t1 +:+ String " " rest)).
Proof.
  intros H0 Hne0 H1 Hlen.
  rewrite (parse_job_id_second t0 t1 rest (plain_no_space t0 H0) H1).
  unfold spec_job_handle. rewrite ws_tokens_second; try done.
  - by apply Nat.leb_le in Hlen as ->.
  - intros ->. simpl in Hlen. lia.
Qed.

End Layout.

(** C8, as the code has it: a submission that the scheduler does not
    acknowledge within the timeout fails with [TimeoutExpired], after the
    command reached the shell.  An acknowledged one is parsed from the
    text [str] makes of the output, split on the space character: the
    parse fails, with [IndexError], exactly when the output holds no space
    and returns a handle for every other output, whatever its layout.
    When the output is a first token, a space, a second token of plain
    characters and a space, the handle is that second token without its
    first and last character; and when both tokens are plain, the first
    non-empty and the second of two characters at least, this is the
    handle of the interface description. *)
Theorem submit_job_handle (env : Env) (world : Oracle) (self : Leaderboard)
    (dataset_type : string) (bundle_id : nat) (w : World) (cmd : string) :
  bundle_command env self dataset_type bundle_id = Ok cmd ->
  let w' := mkWorld (bsub_calls w ++ [cmd]) (bjobs_calls w) (slept w)
              (log w ++ [LogCommand cmd]) (stdout w) (clock_reads w)
              (tracking w) in
  (bsub_out world (length (bsub_calls w)) = NoAnswer ->
   submit_job env world self dataset_type bundle_id w
   = (Raise TimeoutExpired, w'))
  /\ (forall outs,
        bsub_out world (length (bsub_calls w)) = Completed outs ->
        submit_job env world self dataset_type bundle_id w
        = (parse_job_id outs, w')
        /\ (Py.has_char " " outs = false -> parse_job_id outs = Raise IndexError)
        /\ (Py.has_char " " outs = true ->
            exists handle, parse_job_id outs = Ok handle)
        /\ (forall t0 t1 rest,
              outs = t0 +:+ String " " (t1 +:+ String " " rest) ->
              Py.has_char " " t0 = false -> plain t1 = true ->
              parse_job_id outs = Ok (Py.strip_ends t1))
        /\ (forall t0 t1 rest,
              outs = t0 +:+ String " " (t1 +:+ String " " rest) ->
              plain t0 = true -> t0 ≠ "" -> plain t1 = true ->
              (2 <= String.length t1)%nat ->
              parse_job_id outs = spec_job_handle outs)).
Proof.
  intros Hcmd w'. split.
  - intros Hout. by rewrite (submit_job_known env world self _ _ w cmd Hcmd), Hout.
  - intros outs Hout. split; [| split; [| split; [| split]]].
    + by rewrite (submit_job_known env world self _ _ w cmd Hcmd), Hout.
    + intros Hsp. pose proof (parse_job_id_total outs) as H.
      by rewrite Hsp in H.
    + intros Hsp. pose proof (parse_job_id_total outs) as H.
      by rewrite Hsp in H.
    + intros t0 t1 rest -> H0 H1. by apply parse_job_id_second.
    + intros t0 t1 rest -> H0 Hne H1 Hlen. by apply parse_job_id_as_described.
Qed.

Lemma submit_job_handle_witness :
  exists cmd,
    bundle_command Demo.env Demo.self "tum" 0 = Ok cmd
    /\ (submit_job Demo.env Demo.world Demo.self "tum" 0 Demo.w0).1 = Ok "100"
    /\ (submit_job Demo.env Demo.silent Demo.self "tum" 0 Demo.w0).1
       = Raise TimeoutExpired.
Proof.
  destruct (bundle_command Demo.env Demo.self "tum" 0) as [cmd| |] eqn:Hcmd;
    [|discriminate|discriminate].
  exists cmd. split; [reflexivity |].
  destruct (submit_job_handle Demo.env Demo.world Demo.self "tum" 0 Demo.w0
              cmd Hcmd) as [_ Hack].
  destruct (submit_job_handle Demo.env Demo.silent Demo.self "tum" 0 Demo.w0
              cmd Hcmd) as [Hsilent _].
  split.
  - destruct (Hack _ eq_refl) as [-> _]. reflexivity.
  - by rewrite (Hsilent eq_refl).
Defined.

(** Against C8 as stated: the answer [Job 7 ok] has no second token between
    a pair of marker characters, so that by the interface description it is
    a parse failure; the code returns the empty handle for it. *)
Lemma submit_job_accepts_any_layout :
  spec_token_layout "Job 7 ok" = false
  /\ spec_job_handle "Job 7 ok" = Raise IndexError
  /\ bsub_out Demo.odd 0 = Completed "Job 7 ok"
  /\ (submit_job Demo.env Demo.odd Demo.self "tum" 0 Demo.w0).1 = Ok "".
Proof. repeat split; reflexivity. Qed.

(** ** The model on concrete inputs *)

Example split_tokens :
  Py.split "_" "exp1_b_3" = ["exp1"; "b"; "3"]
  /\ Py.split " " "" = [""]
  /\ Py.split "_" "a__b_" = ["a"; ""; "b"; ""].
Proof. repeat split; reflexivity. Qed.

Example strip_ends_short :
  Py.strip_ends "<12345>" = "12345" /\ Py.strip_ends "ab" = ""
  /\ Py.strip_ends "a" = "" /\ Py.strip_ends "" = "".
Proof. repeat split; reflexivity. Qed.

Example contains_test :
  Py.contains "test" "val_test_loss" = true
  /\ Py.contains "test" "train_loss" = false
  /\ Py.contains "test" "tes" = false.
Proof. repeat split; reflexivity. Qed.

Example str_of_bytes_newline :
  Py.str_of_bytes ("Job <42> is submitted." +:+ Demo.nl)
  = "b'Job <42> is submitted." +:+ String Py.backslash "n'".
Proof. reflexivity. Qed.

(** With exactly two tokens, the closing quote that [str] adds ends up in
    the handle. *)
Example parse_job_id_last_token :
  parse_job_id "Job <123>" = Ok "123>"
  /\ spec_job_handle "Job <123>" = Ok "123"
  /\ parse_job_id "Job <123> is submitted" = Ok "123".
Proof. repeat split; reflexivity. Qed.

Example parse_job_id_no_space : parse_job_id "Job" = Raise IndexError.
Proof. reflexivity. Qed.

Example job_ids_of_listing :
  job_ids (bjobs_out Demo.world 0) = {[ "101"; "999" ]}
  /\ job_ids "" = ∅
  /\ job_ids ("JOBID USER" +:+ Demo.nl) = ∅.
Proof. repeat split; vm_compute; reflexivity. Qed.

(** The empty [run_name] is the one whose summary run is in its own
    family. *)
Example summary_of_empty_name :
  base_run_name ("" +:+ "_av") = ""
  /\ base_run_name ("exp" +:+ "_av") = ""
  /\ base_run_name ("my_run" +:+ "_av") = "my".
Proof. repeat split; reflexivity. Qed.

Example aggregate_later_key_dropped :
  match aggregate_metrics
          [ {[ "test_a" := Np.Fin 1 ]};
            <[ "test_a" := Np.Fin 2 ]> {[ "test_b" := Np.Fin 5 ]} ]
  with
  | Ok aggregated =>
      map_to_list aggregated = [("test_a", [Np.Fin 1; Np.Fin 2])]
  | _ => False
  end.
Proof. vm_compute. reflexivity. Qed.

(** The whole pipeline of the scenario: three submissions, three status
    queries with two sleeps, one summary run. *)
Example submit_bundle_scenario :
  let out := submit_bundle Demo.env Demo.world 5 Demo.self "tum" Demo.w0 in
  out.1 = Ok tt
  /\ length (bsub_calls out.2) = 3%nat
  /\ bjobs_calls out.2 = 3%nat
  /\ slept out.2 = [10; 10]%nat
  /\ (length <$> tracking out.2 !! "tum") = Some 4%nat
  /\ (submit_bundle Demo.env Demo.world 2 Demo.self "tum" Demo.w0).1 = OutOfFuel.
Proof. repeat split; vm_compute; reflexivity. Qed.

(** ** Run names of the bundle *)

Section BundleNames.

Implicit Types (s t : string) (c : ascii).

Lemma all_digits_app s t : all_digits (s +:+ t) = all_digits s && all_digits t.
Proof.
  induction s as [|c s IH]; simpl; [done |]. by rewrite IH, andb_assoc.
Qed.

Lemma string_of_uint_digits d : all_digits (NilEmpty.string_of_uint d) = true.
Proof. induction d; simpl; try done; exact IHd. Qed.

Lemma str_of_nat_digits n : all_digits (Py.str_of_nat n) = true.
Proof. apply string_of_uint_digits. Qed.

Lemma is_digit_facts c :
  is_digit c = true -> plain_char c = true /\ Ascii.eqb c "_" = false.
Proof.
  destruct c as [[] [] [] [] [] [] [] []]; vm_compute;
    first [discriminate | by split].
Qed.

Lemma digits_plain s : all_digits s = true -> plain s = true.
Proof.
  induction s as [|c s IH]; simpl; [done |].
  intros [Hc Hs]%andb_true_iff.
  destruct (is_digit_facts c Hc) as [-> _]. by apply IH.
Qed.

Lemma digits_no_underscore s : all_digits s = true -> Py.has_char "_" s = false.
Proof.
  induction s as [|c s IH]; simpl; [done |].
  intros [Hc Hs]%andb_true_iff.
  destruct (is_digit_facts c Hc) as [_ ->]. by apply IH.
Qed.

(** [str] of a number can be read back. *)
Lemma str_of_nat_inj n m : Py.str_of_nat n = Py.str_of_nat m -> n = m.
Proof.
  unfold Py.str_of_nat. intros H.
  apply (f_equal NilEmpty.uint_of_string) in H.
  rewrite !NilEmpty.usu in H. injection H as H.
  apply (f_equal Nat.of_uint) in H.
  by rewrite !DecimalNat.Unsigned.of_to in H.
Qed.

Lemma string_app_inj_l s t1 t2 : s +:+ t1 = s +:+ t2 -> t1 = t2.
Proof.
  induction s as [|c s IH]; simpl; [done |]. intros [= H]. by apply IH.
Qed.

Lemma drop_last2_two {A} (l : list A) (x y : A) :
  Py.drop_last2 (l ++ [x; y]) = l.
Proof.
  change [x; y] with ([x] ++ [y]). rewrite app_assoc.
  apply drop_last2_snoc2.
Qed.

End BundleNames.

(** X1: the run name that [submit_job] gives to the job of bundle index
    [b] has the configured [run_name] as its base run name, whatever the
    [run_name] (underscores included): what the jobs are started under is
    what [load_metrics] looks for. *)
Theorem bundle_run_name_base (self : Leaderboard) (b : nat) :
  base_run_name (run_name self +:+ "_b_" +:+ Py.str_of_nat b) = run_name self.
Proof.
  unfold base_run_name.
  change (run_name self +:+ "_b_" +:+ Py.str_of_nat b)
    with (run_name self +:+ String "_" ("b" +:+ String "_" (Py.str_of_nat b))).
  rewrite !split_app.
  rewrite (split_no_sep "_" (Py.str_of_nat b))
    by apply digits_no_underscore, str_of_nat_digits.
  change (Py.split "_" "b") with ["b"]. cbn [app].
  rewrite drop_last2_two. apply join_split.
Qed.

(** X2: for a known dataset, the commands of two jobs are equal only when
    their bundle indices are: no two jobs of a bundle are submitted under
    the same run name. *)
Theorem bundle_command_inj (env : Env) (self : Leaderboard)
    (dataset_type : string) (b1 b2 : nat) (cmd : string) :
  bundle_command env self dataset_type b1 = Ok cmd ->
  bundle_command env self dataset_type b2 = Ok cmd ->
  b1 = b2.
Proof.
  unfold bundle_command, get_lsf_command.
  destruct (dataset_root_of env dataset_type) as [root|]; [|discriminate].
  intros [= H1] [= H2]. rewrite <- H2 in H1. clear H2.
  unfold Py.join in H1. cbn [String.concat] in H1.
  repeat first [apply string_app_inj_l in H1 | injection H1 as H1].
  by apply str_of_nat_inj.
Qed.

Lemma bundle_command_inj_witness :
  exists cmd,
    bundle_command Demo.env Demo.self "tum" 1 = Ok cmd
    /\ forall b, bundle_command Demo.env Demo.self "tum" b = Ok cmd -> b = 1%nat.
Proof.
  destruct (bundle_command Demo.env Demo.self "tum" 1) as [cmd| |] eqn:Hcmd;
    [|discriminate|discriminate].
  exists cmd. split; [reflexivity |].
  intros b Hb.
  exact (bundle_command_inj Demo.env Demo.self "tum" b 1 cmd Hb Hcmd).
Defined.

(** ** The acknowledgement of LSF *)

Lemma substring_prefix s t : String.substring 0 (String.length s) (s +:+ t) = s.
Proof.
  induction s as [|c s IH]; simpl.
  - by destruct t.
  - by rewrite IH.
Qed.

(** [s[1:-1]] undoes a pair of delimiters. *)
Lemma strip_ends_wrap a b s : Py.strip_ends (String a (s +:+ String b "")) = s.
Proof.
  unfold Py.strip_ends. simpl String.length. rewrite string_app_length.
  simpl String.length.
  replace (S (String.length s + 1) - 2)%nat with (String.length s) by lia.
  simpl. apply substring_prefix.
Qed.

Lemma plain_app s t : plain (s +:+ t) = plain s && plain t.
Proof.
  induction s as [|c s IH]; simpl; [done |]. by rewrite IH, andb_assoc.
Qed.

(** X3: on an acknowledgement of the form that LSF prints, a first word,
    a space, the identifier between angle brackets, a space and the rest,
    [submit_job] extracts exactly the identifier, for every identifier of
    plain characters (the decimal numbers among them). *)
Theorem parse_job_id_bracketed (word id rest : string) :
  Py.has_char " " word = false ->
  plain id = true ->
  parse_job_id (word +:+ " <" +:+ id +:+ "> " +:+ rest) = Ok id.
Proof.
  intros Hword Hid.
  replace (word +:+ " <" +:+ id +:+ "> " +:+ rest)
    with (word +:+ String " " (String "<" (id +:+ String ">" "")
                                 +:+ String " " rest)).
  - rewrite parse_job_id_second; [by rewrite strip_ends_wrap | done |].
    simpl. rewrite plain_app, Hid. reflexivity.
  - simpl. f_equal. f_equal. f_equal. by rewrite string_app_assoc.
Qed.

Lemma parse_job_id_bracketed_witness :
  Py.has_char " " "Job" = false
  /\ plain "12345" = true
  /\ parse_job_id ("Job" +:+ " <" +:+ "12345" +:+ "> "
                     +:+ ("is submitted to queue <normal>." +:+ Demo.nl))
     = Ok "12345".
Proof.
  split; [reflexivity |]. split; [reflexivity |].
  exact (parse_job_id_bracketed "Job" "12345"
           ("is submitted to queue <normal>." +:+ Demo.nl) eq_refl eq_refl).
Defined.

(** ** A bundle that cannot be submitted *)

Section Abort.

Variable env : Env.
Variable world : Oracle.

Implicit Types (self : Leaderboard) (w : World).

(** The loop over two ranges in a row. *)
Lemma submit_jobs_app self d bs1 : forall bs2 started w,
  submit_jobs env world self d (bs1 ++ bs2) started w
  = match submit_jobs env world self d bs1 started w with
    | (Ok started', w') => submit_jobs env world self d bs2 started' w'
    | other => other
    end.
Proof.
  induction bs1 as [|b bs1 IH]; intros bs2 started w; [done |].
  cbn [app submit_jobs]. unfold bind.
  destruct (submit_job env world self d b w) as [[job_id|e|] w1]; [|done|done].
  apply IH.
Qed.

(** The loop stops at the first submission that fails, after the command
    of that submission reached the shell. *)
Lemma submit_jobs_abort self d handles rest e : forall s started w,
  d ∈ configured_datasets ->
  (forall i h, handles !! i = Some h ->
     exists outs,
       bsub_out world (length (bsub_calls w) + i) = Completed outs
       /\ parse_job_id outs = Ok h) ->
  answer_of (bsub_out world (length (bsub_calls w) + length handles)) = Raise e ->
  exists w',
    submit_jobs env world self d (seq s (length handles) ++ (s + length handles)%nat :: rest)
      started w = (Raise e, w')
    /\ length (bsub_calls w') = (length (bsub_calls w) + length handles + 1)%nat
    /\ bjobs_calls w' = bjobs_calls w /\ tracking w' = tracking w.
Proof.
  intros s started w Hd Hresp Hfail.
  destruct (submit_jobs_run env world self d handles s started w Hd Hresp)
    as (w1 & cmds & Hrun & Hcalls & Hcmds & Hq & _ & Ht & _).
  rewrite submit_jobs_app, Hrun. cbn [submit_jobs]. unfold bind.
  destruct (get_lsf_command_known env self d
              (run_name self +:+ "_b_" +:+ Py.str_of_nat (s + length handles)) Hd)
    as [cmd Hcmd].
  rewrite (submit_job_known env world self d _ w1 cmd Hcmd).
  assert (length cmds = length handles) as Hlen.
  { apply (f_equal length) in Hcmds.
    by rewrite !length_fmap, length_seq in Hcmds. }
  rewrite Hcalls, length_app, Hlen.
  unfold answer_of in Hfail.
  destruct (bsub_out world (length (bsub_calls w) + length handles)) as [outs|].
  - rewrite Hfail. eexists. split; [done |]. simpl.
    rewrite !length_app, Hlen. simpl. by repeat split.
  - injection Hfail as <-. eexists. split; [done |]. simpl.
    rewrite !length_app, Hlen. simpl. by repeat split.
Qed.

End Abort.

(** X4: when the scheduler acknowledges the first [k] submissions of a
    bundle of [N > k] jobs and the next one fails (no answer within the
    timeout, or an answer without a space), [submit_bundle] ends with that
    exception after exactly [k + 1] commands: the remaining jobs are not
    submitted, the status of the submitted ones is never queried, nothing
    is aggregated, and the exception is not caught. *)
Theorem failed_submission_aborts_bundle (env : Env) (world : Oracle)
    (fuel : nat) (self : Leaderboard) (dataset_type : string) (N : nat)
    (handles : list string) (e : exn) (w : World) :
  bundle_size self = Z.of_nat N ->
  dataset_type ∈ configured_datasets ->
  (length handles < N)%nat ->
  (forall i h, handles !! i = Some h ->
     exists outs,
       bsub_out world (length (bsub_calls w) + i) = Completed outs
       /\ parse_job_id outs = Ok h) ->
  answer_of (bsub_out world (length (bsub_calls w) + length handles)) = Raise e ->
  exists w',
    submit_bundle env world fuel self dataset_type w = (Raise e, w')
    /\ length (bsub_calls w') = (length (bsub_calls w) + length handles + 1)%nat
    /\ bjobs_calls w' = bjobs_calls w
    /\ tracking w' = tracking w.
Proof.
  intros Hsize Hd Hlt Hresp Hfail.
  unfold submit_bundle, run_bundle, bind, setup_logger, ret, logger_info.
  simpl. unfold Py.range. rewrite Hsize, Nat2Z.id.
  replace N with (length handles + S (N - length handles - 1))%nat by lia.
  rewrite seq_app. cbn [seq]. rewrite Nat.add_0_l.
  match goal with |- context [submit_jobs env world self dataset_type _ ∅ ?w0] =>
    destruct (submit_jobs_abort env world self dataset_type handles
                (seq (S (length handles)) (N - length handles - 1)) e
                0 ∅ w0 Hd Hresp Hfail) as (w' & Hrun & Hcalls & Hq & Ht)
  end.
  rewrite Nat.add_0_l in Hrun. rewrite Hrun.
  exists w'. by repeat split.
Qed.

Lemma failed_submission_aborts_bundle_witness :
  exists w',
    submit_bundle Demo.env Demo.silent 5 Demo.self "tum" Demo.w0
    = (Raise TimeoutExpired, w')
    /\ length (bsub_calls w') = (length (bsub_calls Demo.w0) + 0 + 1)%nat
    /\ bjobs_calls w' = bjobs_calls Demo.w0
    /\ tracking w' = tracking Demo.w0.
Proof.
  apply (failed_submission_aborts_bundle Demo.env Demo.silent 5 Demo.self
           "tum" 3 [] TimeoutExpired Demo.w0).
  - reflexivity.
  - unfold configured_datasets. rewrite !elem_of_cons. tauto.
  - simpl. lia.
  - intros i h Hi. discriminate.
  - reflexivity.
Defined.

(** ** The empty bundle *)

(** X5: with a bundle size of zero or less nothing is submitted, so that
    not even an unknown [dataset_type] raises; the wait ends after a single
    status query without sleeping, whatever the scheduler lists, and the
    pipeline goes on to the aggregation with the tracking store as it
    was. *)
Theorem empty_bundle_goes_straight_on (env : Env) (world : Oracle)
    (fuel : nat) (self : Leaderboard) (dataset_type : string) (w : World) :
  (bundle_size self <= 0)%Z ->
  exists w',
    run_bundle env world (S fuel) self dataset_type w = (Ok tt, w')
    /\ bsub_calls w' = bsub_calls w
    /\ bjobs_calls w' = S (bjobs_calls w)
    /\ slept w' = slept w
    /\ tracking w' = tracking w
    /\ log w' = log w ++ [ LogStarted dataset_type;
                           LogJobIds dataset_type ∅;
                           LogStillRunning dataset_type ∅;
                           LogAllFinished dataset_type;
                           LogAveraging dataset_type ].
Proof.
  intros Hsize.
  unfold run_bundle, bind, setup_logger, ret, logger_info.
  unfold Py.range. replace (Z.to_nat (bundle_size self)) with 0%nat by lia.
  cbn [seq submit_jobs]. unfold ret. cbn -[wait_jobs].
  rewrite wait_jobs_step. cbn zeta. unfold still_running.
  rewrite (left_absorb_L ∅ (∩)).
  destruct (decide (∅ ≠ ∅)) as [Hne|_]; [done |].
  cbn. eexists. split; [done |]. cbn.
  repeat split; try done. by rewrite <- !app_assoc.
Qed.

Lemma empty_bundle_goes_straight_on_witness :
  exists w',
    run_bundle Demo.env Demo.world 1
      (mkLeaderboard "train.py" "imagenet" "exp" 0 [] false) "imagenet" Demo.w0
    = (Ok tt, w')
    /\ bsub_calls w' = bsub_calls Demo.w0
    /\ bjobs_calls w' = S (bjobs_calls Demo.w0).
Proof.
  destruct (empty_bundle_goes_straight_on Demo.env Demo.world 0
              (mkLeaderboard "train.py" "imagenet" "exp" 0 [] false)
              "imagenet" Demo.w0) as (w' & Hrun & Hb & Hq & _).
  - simpl. lia.
  - exists w'. by repeat split.
Defined.

(** ** Reading the listing of [bjobs] *)

Section Listing.

Implicit Types (s : string) (lines : list string).

(** [s.split(sep)] undoes [sep.join] of tokens without the separator. *)
Lemma split_join sep lines :
  lines ≠ [] ->
  Forall (fun s => Py.has_char sep s = false) lines ->
  Py.split sep (Py.join (String sep "") lines) = lines.
Proof.
  intros Hne Hall. unfold Py.join.
  induction Hall as [|x lines Hx Hall IH]; [done |].
  destruct lines as [|y lines].
  - by apply split_no_sep.
  - change (String.concat (String sep "") (x :: y :: lines))
      with (x +:+ String sep (String.concat (String sep "") (y :: lines))).
    rewrite split_app, (split_no_sep sep x Hx), IH; done.
Qed.

Lemma omap_seq_shift {A} (f : nat -> option A) n : forall k : nat,
  omap f (seq (S k) n) = omap (fun i => f (S i)) (seq k n).
Proof.
  induction n as [|n IH]; intros k; [done |].
  simpl. by rewrite IH.
Qed.

Lemma omap_lookup_prefix {A B} (g : A -> option B) (l t : list A) :
  omap (fun i => (l ++ t) !! i ≫= g) (seq 0 (length l)) = omap g l.
Proof.
  induction l as [|a l IH]; [done |].
  simpl. rewrite omap_seq_shift. destruct (g a); [f_equal |]; exact IH.
Qed.

Lemma split_first_token line :
  Py.split " " line !! 0%nat = Some (first_token line).
Proof.
  unfold first_token. pose proof (split_nonempty " " line).
  by destruct (Py.split " " line).
Qed.

Lemma omap_first_token lines :
  omap (fun line => Py.split " " line !! 0%nat) lines = first_token <$> lines.
Proof.
  induction lines as [|line lines IH]; [done |].
  change (omap (fun line => Py.split " " line !! 0%nat) (line :: lines))
    with (match Py.split " " line !! 0%nat with
          | Some y => y :: omap (fun line => Py.split " " line !! 0%nat) lines
          | None => omap (fun line => Py.split " " line !! 0%nat) lines
          end).
  by rewrite split_first_token, IH.
Qed.

End Listing.

(** X6: of a listing made of a header line, job lines and a last line,
    joined by newlines, [wait_jobs] takes the first space-delimited token
    of every job line as an active job: the header is skipped, and so is
    the last line, which is the empty rest after the final newline of a
    well-formed listing but a job of its own when that newline is
    missing.  A listing without any newline yields no active job. *)
Theorem job_ids_of_lines (header : string) (jobs : list string) (final : string) :
  Forall (fun s => Py.has_char (Ascii.ascii_of_nat 10) s = false)
         (header :: jobs ++ [final]) ->
  job_ids (Py.join (String (Ascii.ascii_of_nat 10) "")
             (header :: jobs ++ [final]))
  = list_to_set (first_token <$> jobs)
  /\ job_ids header = ∅.
Proof.
  intros Hall. split.
  - unfold job_ids. rewrite split_join by done.
    cbn [length]. rewrite length_app. cbn [length].
    replace (S (length jobs + 1) - 1 - 1)%nat with (length jobs) by lia.
    f_equal. rewrite omap_seq_shift. cbn [lookup list_lookup].
    rewrite (omap_lookup_prefix (fun line => Py.split " " line !! 0%nat)).
    apply omap_first_token.
  - apply Forall_cons in Hall as [Hh _].
    unfold job_ids. by rewrite (split_no_sep _ _ Hh).
Qed.

Lemma job_ids_of_lines_witness :
  job_ids (Py.join (String (Ascii.ascii_of_nat 10) "")
             ("JOBID USER STAT" :: ["101 user RUN"; "999 other RUN"] ++ [""]))
  = list_to_set (first_token <$> ["101 user RUN"; "999 other RUN"])
  /\ job_ids (Py.join (String (Ascii.ascii_of_nat 10) "")
                ("JOBID USER STAT" :: ["101 user RUN"] ++ ["999 other RUN"]))
     = list_to_set (first_token <$> ["101 user RUN"]).
Proof.
  split.
  - apply (job_ids_of_lines "JOBID USER STAT"
             ["101 user RUN"; "999 other RUN"] "").
    repeat constructor.
  - apply (job_ids_of_lines "JOBID USER STAT" ["101 user RUN"] "999 other RUN").
    repeat constructor.
Defined.

(** ** What an aggregation does to the tracking store *)

Section Publishing.

Variable world : Oracle.

Implicit Types (self : Leaderboard) (w : World) (runs : list Run).

(** The aggregation in terms of the loop of [load_metrics]. *)
Lemma average_metrics_unfold self d w :
  average_metrics world self d w
  = match tracking w !! d with
    | None => (Raise AttributeError, w)
    | Some runs =>
        match load_runs self runs [] None with
        | Ok (metrics, model_name) =>
            match metrics with
            | [] => (Raise IndexError, w)
            | _ :: _ =>
                (Ok tt, with_run w d (summary_of world self w metrics model_name))
            end
        | Raise e => (Raise e, w)
        | OutOfFuel => (OutOfFuel, w)
        end
    end.
Proof.
  unfold average_metrics, load_metrics, bind, get_tracking, lift, raise.
  destruct (tracking w !! d) as [runs|]; [|done].
  destruct (load_runs self runs [] None) as [[metrics m]|e|]; [|done|done].
  cbn [fst snd]. unfold summary_of.
  destruct metrics as [|first rest]; [done |].
  destruct (aggregate_metrics (first :: rest)) as [agg|e|] eqn:Hagg;
    [done | discriminate | discriminate].
Qed.

Lemma summary_of_params self w metrics model_name :
  metrics ≠ [] ->
  run_params (summary_of world self w metrics model_name)
  = <[ "num_of_runs_to_average" := Py.str_of_nat (length metrics) ]>
      (<[ "model.name" := default "None" model_name ]>
         (<[ "starting_time" := clock world (clock_reads w) ]>
            (<[ "run_name" := run_name self +:+ "_av" ]> ∅))).
Proof.
  intros Hne. unfold summary_of.
  destruct metrics as [|first rest]; [done |].
  by destruct (aggregate_metrics (first :: rest)) eqn:Hagg.
Qed.

(** The metrics of the summary depend on the metrics of the family
    only. *)
Lemma summary_of_metrics self w1 w2 metrics m1 m2 :
  run_metrics (summary_of world self w1 metrics m1)
  = run_metrics (summary_of world self w2 metrics m2).
Proof. unfold summary_of. by destruct (aggregate_metrics metrics). Qed.

Lemma summary_of_outside self w metrics model_name :
  run_name self ≠ "" -> metrics ≠ [] ->
  is_Some (run_params (summary_of world self w metrics model_name) !! "run_name")
  /\ ~ in_family self (summary_of world self w metrics model_name).
Proof.
  intros Hname Hne.
  assert (run_params (summary_of world self w metrics model_name) !! "run_name"
          = Some (run_name self +:+ "_av")) as Hrec.
  { rewrite summary_of_params by done.
    rewrite !lookup_insert_ne by done. by rewrite lookup_insert_eq. }
  split; [by rewrite Hrec |].
  unfold in_family. rewrite Hrec. simpl. intros [= Hbase].
  pose proof (base_run_name_av_shorter (run_name self) Hname) as Hlen.
  rewrite Hbase in Hlen. lia.
Qed.

End Publishing.

(** X7: the outcome of [average_metrics] is decided by the experiment of
    the dataset.  Without the experiment it raises [AttributeError]; with
    a run that has no [run_name] parameter it raises [KeyError], even when
    other runs form a family; with no run in the family it raises
    [IndexError]; all three leave the world untouched.  Otherwise it
    succeeds, reads the clock once and lists one new run at the head of
    the experiment: the summary of the family's metrics under
    [run_name_av], with the number of family runs as
    [num_of_runs_to_average]. *)
Theorem average_metrics_outcome (world : Oracle) (self : Leaderboard)
    (dataset_type : string) (w : World) :
  match tracking w !! dataset_type with
  | None =>
      average_metrics world self dataset_type w = (Raise AttributeError, w)
  | Some runs =>
      if decide (Forall (fun r => is_Some (run_params r !! "run_name")) runs)
      then
        if decide (family self runs = [])
        then average_metrics world self dataset_type w = (Raise IndexError, w)
        else
          exists model_name summary,
            average_metrics world self dataset_type w
            = (Ok tt, with_run w dataset_type summary)
            /\ summary
               = summary_of world self w (run_metrics <$> family self runs)
                   model_name
            /\ run_tag summary = run_name self +:+ "_av"
            /\ run_params summary !! "run_name" = Some (run_name self +:+ "_av")
            /\ run_params summary !! "num_of_runs_to_average"
               = Some (Py.str_of_nat (length (family self runs)))
            /\ run_params summary !! "starting_time"
               = Some (clock world (clock_reads w))
      else
        average_metrics world self dataset_type w
        = (Raise (KeyError "run_name"), w)
  end.
Proof.
  rewrite average_metrics_unfold.
  destruct (tracking w !! dataset_type) as [runs|]; [|done].
  pose proof (load_runs_spec self runs [] None) as Hspec.
  destruct (load_runs self runs [] None) as [[metrics m]|e|]; [| |done].
  - destruct Hspec as [Hmetrics Hall]. simpl in Hmetrics.
    rewrite decide_True by done. fold (family self runs) in Hmetrics.
    destruct (decide (family self runs = [])) as [Hnone|Hsome].
    + rewrite Hnone in Hmetrics. by rewrite Hmetrics.
    + destruct metrics as [|first rest].
      { symmetry in Hmetrics. by apply fmap_nil_inv in Hmetrics. }
      exists m, (summary_of world self w (first :: rest) m).
      split; [done |]. split; [by rewrite Hmetrics |].
      rewrite summary_of_params by done.
      split.
      { unfold summary_of.
        by destruct (aggregate_metrics (first :: rest)) eqn:Hagg. }
      split.
      { rewrite !lookup_insert_ne by done. by rewrite lookup_insert_eq. }
      split.
      { rewrite lookup_insert_eq. by rewrite Hmetrics, length_fmap. }
      rewrite !lookup_insert_ne by done. by rewrite lookup_insert_eq.
  - destruct Hspec as [-> Hex].
    rewrite decide_False; [done |].
    intros Hall. apply Exists_exists in Hex as (r & Hin & Hnone).
    rewrite Forall_forall in Hall. specialize (Hall r Hin).
    rewrite Hnone in Hall. by destruct Hall.
Qed.

(** X8: whatever happens in a dataset pipeline, the tracking store is
    either as it was or has one new run, under the name [run_name_av], at
    the head of the experiment of that dataset, and this only when the
    pipeline returned normally: the runs listed before are all still
    listed, in the same order, and the other experiments are untouched. *)
Theorem submit_bundle_store (env : Env) (world : Oracle) (fuel : nat)
    (self : Leaderboard) (dataset_type : string) (w : World)
    (r : Res unit) (w' : World) :
  submit_bundle env world fuel self dataset_type w = (r, w') ->
  (tracking w' = tracking w
   \/ (r = Ok tt
       /\ exists summary,
            tracking w'
            = <[ dataset_type :=
                   summary :: default [] (tracking w !! dataset_type) ]>
                (tracking w)
            /\ run_tag summary = run_name self +:+ "_av"))
  /\ (forall d, d ≠ dataset_type -> tracking w' !! d = tracking w !! d)
  /\ (forall runs,
        tracking w !! dataset_type = Some runs ->
        exists new, tracking w' !! dataset_type = Some (new ++ runs)
                    /\ (length new <= 1)%nat).
Proof.
  intros Hrun.
  assert (tracking w' = tracking w
          \/ (r = Ok tt
              /\ exists summary,
                   tracking w'
                   = <[ dataset_type :=
                          summary :: default [] (tracking w !! dataset_type) ]>
                       (tracking w)
                   /\ run_tag summary = run_name self +:+ "_av")) as Hstore.
  { revert Hrun. unfold submit_bundle, bind.
    destruct (run_bundle env world fuel self dataset_type w)
      as [[[]|e|] w1] eqn:Hbundle;
      apply run_bundle_frame in Hbundle;
      [| intros [= <- <-]; by left | intros [= <- <-]; by left].
    pose proof (aggregation_step world self dataset_type w1) as Hstep.
    pose proof (average_metrics_unfold world self dataset_type w1) as Hunf.
    destruct (average_metrics world self dataset_type w1) as [[[]|e|] w2];
      [| |done]; rewrite Hstep; intros [= <- <-].
    - right. split; [done |].
      destruct (tracking w1 !! dataset_type) as [runs|] eqn:Hruns;
        [|discriminate].
      destruct (load_runs self runs [] None) as [[metrics m]|e|];
        [|discriminate|discriminate].
      destruct metrics as [|first rest]; [discriminate |].
      injection Hunf as ->.
      exists (summary_of world self w1 (first :: rest) m). split.
      + simpl. by rewrite <- Hbundle, Hruns.
      + unfold summary_of.
        by destruct (aggregate_metrics (first :: rest)) eqn:Hagg.
    - left. simpl. exact Hbundle. }
  split; [exact Hstore |]. split.
  - intros d Hd. destruct Hstore as [-> | (_ & summary & -> & _)]; [done |].
    by rewrite lookup_insert_ne.
  - intros runs Hruns.
    destruct Hstore as [-> | (_ & summary & -> & _)].
    + exists []. split; [done | simpl; lia].
    + exists [summary]. rewrite lookup_insert_eq, Hruns. split; [done | simpl; lia].
Qed.

Lemma submit_bundle_store_witness :
  exists new,
    tracking (submit_bundle Demo.env Demo.world 5 Demo.self "tum" Demo.w0).2
      !! "tum" = Some (new ++ Demo.runs)
    /\ (length new <= 1)%nat.
Proof.
  destruct (submit_bundle Demo.env Demo.world 5 Demo.self "tum" Demo.w0)
    as [r w'] eqn:Hrun.
  destruct (submit_bundle_store Demo.env Demo.world 5 Demo.self "tum" Demo.w0
              r w' Hrun) as (_ & _ & Hkeep).
  exact (Hkeep Demo.runs eq_refl).
Defined.

(** X9: an aggregation can be repeated.  For a non-empty [run_name], a
    second [average_metrics] after a successful one succeeds as well and
    lists a second summary run before the first: its metrics are those of
    the first (the first summary is not averaged in) and its parameters
    differ in [starting_time] alone; the store keeps both. *)
Theorem repeated_aggregation (world : Oracle) (self : Leaderboard)
    (dataset_type : string) (w w1 : World) :
  run_name self ≠ "" ->
  average_metrics world self dataset_type w = (Ok tt, w1) ->
  exists runs first second,
    tracking w !! dataset_type = Some runs
    /\ tracking w1 !! dataset_type = Some (first :: runs)
    /\ average_metrics world self dataset_type w1
       = (Ok tt, with_run w1 dataset_type second)
    /\ tracking (with_run w1 dataset_type second) !! dataset_type
       = Some (second :: first :: runs)
    /\ run_metrics second = run_metrics first
    /\ run_params second
       = <[ "starting_time" := clock world (clock_reads w1) ]> (run_params first).
Proof.
  intros Hname. rewrite average_metrics_unfold.
  destruct (tracking w !! dataset_type) as [runs|] eqn:Hruns; [|discriminate].
  destruct (load_runs self runs [] None) as [[metrics m]|e|] eqn:Hload;
    [|discriminate|discriminate].
  destruct metrics as [|m0 rest] eqn:Hmetrics; [discriminate |].
  rewrite <- Hmetrics in *.
  assert (metrics ≠ []) as Hne by (by rewrite Hmetrics).
  intros [= <-].
  set (first := summary_of world self w metrics m).
  exists runs, first, (summary_of world self (with_run w dataset_type first)
                         metrics m).
  split; [done |].
  assert (tracking (with_run w dataset_type first) !! dataset_type
          = Some (first :: runs)) as Hfirst.
  { simpl. by rewrite lookup_insert_eq, Hruns. }
  split; [done |]. split; [| split; [| split]].
  - rewrite average_metrics_unfold, Hfirst.
    destruct (summary_of_outside world self w metrics m Hname Hne)
      as [Hsome Hout].
    pose proof (load_runs_skip self first [] runs [] None Hsome Hout) as Hskip.
    change ([] ++ first :: runs) with (first :: runs) in Hskip.
    change ([] ++ runs) with runs in Hskip.
    rewrite Hskip, Hload. by rewrite Hmetrics.
  - cbn [with_run tracking]. rewrite lookup_insert_eq.
    cbn [with_run tracking] in Hfirst. by rewrite Hfirst.
  - apply summary_of_metrics.
  - unfold first. rewrite !summary_of_params by done.
    cbn [with_run clock_reads].
    rewrite (insert_insert_ne _ "starting_time" "num_of_runs_to_average") by done.
    rewrite (insert_insert_ne _ "starting_time" "model.name") by done.
    by rewrite insert_insert_eq.
Qed.

Lemma repeated_aggregation_witness :
  exists w1 runs first second,
    average_metrics Demo.world Demo.self "tum" Demo.w0 = (Ok tt, w1)
    /\ tracking Demo.w0 !! "tum" = Some runs
    /\ tracking w1 !! "tum" = Some (first :: runs)
    /\ average_metrics Demo.world Demo.self "tum" w1
       = (Ok tt, with_run w1 "tum" second)
    /\ run_metrics second = run_metrics first.
Proof.
  set (w1 := (average_metrics Demo.world Demo.self "tum" Demo.w0).2).
  assert (average_metrics Demo.world Demo.self "tum" Demo.w0 = (Ok tt, w1))
    as Hav by (vm_compute; reflexivity).
  assert (run_name Demo.self ≠ "") as Hname by discriminate.
  destruct (repeated_aggregation Demo.world Demo.self "tum" Demo.w0 w1
              Hname Hav)
    as (runs & first & second & H0 & H1 & H2 & _ & H3 & _).
  exists w1, runs, first, second. by repeat split.
Defined.

(** ** The model name of the family *)

Section ModelName.

Implicit Types (self : Leaderboard) (runs : list Run).

Local Abbreviation take_name :=
  (fun (acc : option string) (name : string) =>
     if falsy acc then Some name else acc).

Lemma load_runs_model_name self runs : forall metrics model_name metrics' found,
  load_runs self runs metrics model_name = Ok (metrics', found) ->
  found = foldl take_name model_name (model_name_of <$> family self runs).
Proof.
  unfold family.
  induction runs as [|r runs IH]; intros metrics model_name metrics' found.
  - by intros [= _ <-].
  - simpl. destruct (run_params r !! "run_name") as [recorded|] eqn:Hrec;
      [|discriminate].
    pose proof (in_family_eqb self r recorded Hrec) as Hfam.
    destruct (String.eqb (run_name self) (base_run_name recorded)).
    + assert (in_family self r) as Hin by (by apply Hfam).
      rewrite (filter_cons_True _ _ _ Hin). intros Hload.
      apply IH in Hload. by rewrite Hload.
    + assert (~ in_family self r) as Hout
        by (intros Hin; apply Hfam in Hin; discriminate).
      rewrite (filter_cons_False _ _ _ Hout). apply IH.
Qed.

(** A name that is not empty is kept to the end. *)
Lemma take_name_kept name (names : list string) :
  name ≠ "" -> foldl take_name (Some name) names = Some name.
Proof.
  intros Hne. induction names as [|n names IH]; [done |].
  simpl. destruct (String.eqb_spec name ""); [done | exact IH].
Qed.

Lemma take_name_some (names : list string) : forall name,
  exists last_name, foldl take_name (Some name) names = Some last_name.
Proof.
  induction names as [|n names IH]; intros name; [by exists name |].
  simpl. destruct (String.eqb name ""); apply IH.
Qed.

End ModelName.

(** X10: the model name that [load_metrics] returns is [None] exactly for
    an empty family.  Otherwise it is the [model.name] parameter of the
    first family run in the order of the listing, [Unknown] when that run
    has none; later runs do not change it, except that an empty name counts
    as not yet found and the next family run is asked. *)
Theorem family_model_name (self : Leaderboard) (runs : list Run)
    (metrics : list (gmap string Np.float)) (found : option string) :
  load_runs self runs [] None = Ok (metrics, found) ->
  match family self runs with
  | [] => found = None
  | r :: rest =>
      (exists name, found = Some name)
      /\ (model_name_of r ≠ "" -> found = Some (model_name_of r))
      /\ (run_params r !! "model.name" = None -> found = Some "Unknown")
      /\ (model_name_of r = "" ->
          match rest with
          | [] => found = Some ""
          | r2 :: _ => model_name_of r2 ≠ "" -> found = Some (model_name_of r2)
          end)
  end.
Proof.
  intros Hload. apply load_runs_model_name in Hload.
  destruct (family self runs) as [|r rest]; [done |].
  cbn [fmap list_fmap foldl falsy] in Hload.
  assert (model_name_of r ≠ "" -> found = Some (model_name_of r)) as Hfirst.
  { intros Hne. by rewrite Hload, take_name_kept. }
  split; [| split; [exact Hfirst | split]].
  - rewrite Hload. apply take_name_some.
  - intros Hnone.
    assert (model_name_of r = "Unknown") as Hname
      by (unfold model_name_of; by rewrite Hnone).
    rewrite Hname in Hfirst. by apply Hfirst.
  - intros Hempty. rewrite Hempty in Hload.
    destruct rest as [|r2 rest]; [done |].
    intros Hne. simpl in Hload. rewrite Hload. by apply take_name_kept.
Qed.

Lemma family_model_name_witness :
  exists metrics found,
    load_runs Demo.self Demo.runs [] None = Ok (metrics, found)
    /\ found = Some "Unknown".
Proof.
  destruct (load_runs Demo.self Demo.runs [] None) as [[metrics found]|e|] eqn:H;
    [| exfalso; vm_compute in H; discriminate
     | exfalso; vm_compute in H; discriminate].
  exists metrics, found. split; [reflexivity |].
  pose proof (family_model_name Demo.self Demo.runs metrics found H) as Hm.
  assert (family Demo.self Demo.runs = Demo.runs) as Hf
    by (vm_compute; reflexivity).
  rewrite Hf in Hm. unfold Demo.runs in Hm.
  destruct Hm as (_ & _ & Hunknown & _).
  apply Hunknown. reflexivity.
Defined.

(** ** The value sequences *)

Lemma omap_length_le {A B} (f : A -> option B) (l : list A) :
  (length (omap f l) <= length l)%nat
  /\ (length (omap f l) = length l <-> Forall (fun x => is_Some (f x)) l).
Proof.
  induction l as [|x l [IHle IHeq]].
  - simpl. split; [lia |]. split; [by constructor | done].
  - change (omap f (x :: l))
      with (match f x with Some y => y :: omap f l | None => omap f l end).
    cbn [length].
    destruct (f x) as [y|] eqn:Hx; cbn [length].
    + split; [lia |]. split.
      * intros Hlen. constructor; [by rewrite Hx |]. apply IHeq. lia.
      * intros [_ Hall]%Forall_cons. f_equal. by apply IHeq.
    + split; [lia |]. split.
      * intros Hlen. lia.
      * intros [[y Hy] _]%Forall_cons. congruence.
Qed.

(** X11: every value sequence that [aggregate_metrics] returns starts
    with the value of the first record and has at most one value per
    record; it has one per record exactly when every later record has the
    key, so that for sparse metrics a mean is taken over fewer values than
    [num_of_runs_to_average] says. *)
Theorem aggregated_sequence_length (first : gmap string Np.float)
    (rest : list (gmap string Np.float))
    (aggregated : gmap string (list Np.float)) (k : string)
    (vs : list Np.float) :
  aggregate_metrics (first :: rest) = Ok aggregated ->
  aggregated !! k = Some vs ->
  head vs = first !! k
  /\ (1 <= length vs <= length (first :: rest))%nat
  /\ (length vs = length (first :: rest)
      <-> Forall (fun m => is_Some (m !! k)) rest).
Proof.
  intros Hagg. rewrite (aggregate_metrics_lookup first rest aggregated k Hagg).
  destruct (decide (k ∈ dom first)) as [Hin|]; [|discriminate].
  apply elem_of_dom in Hin as [v Hv]. intros Hvs.
  assert (vs = values_of k (first :: rest)) as -> by congruence.
  rewrite values_of_cons, Hv. cbn [option_list app head length].
  unfold values_of. split; [done |].
  rewrite length_app. cbn [option_list length].
  match goal with |- context [length (omap ?f rest)] =>
    destruct (omap_length_le f rest) as [Hle Heq]
  end.
  cbn beta in Heq. change (length (option_list (Some v))) with 1%nat.
  split; [lia |]. split; intros H; [apply Heq; lia | apply Heq in H; lia].
Qed.

Lemma aggregated_sequence_length_witness :
  exists aggregated vs,
    aggregate_metrics
      [ {[ "test_a" := Np.Fin 1 ]}; {[ "test_b" := Np.Fin 2 ]};
        {[ "test_a" := Np.Fin 3 ]} ] = Ok aggregated
    /\ aggregated !! "test_a" = Some vs
    /\ head vs = Some (Np.Fin 1)
    /\ (1 <= length vs <= 3)%nat.
Proof.
  assert (aggregate_metrics
            [ {[ "test_a" := Np.Fin 1 ]}; {[ "test_b" := Np.Fin 2 ]};
              {[ "test_a" := Np.Fin 3 ]} ]
          = Ok {[ "test_a" := [Np.Fin 1; Np.Fin 3] ]}) as Hagg
    by (vm_compute; reflexivity).
  assert (({[ "test_a" := [Np.Fin 1; Np.Fin 3] ]} : gmap string (list Np.float))
            !! "test_a" = Some [Np.Fin 1; Np.Fin 3]) as Hk
    by apply lookup_singleton_eq.
  eexists _, _. split; [exact Hagg |]. split; [exact Hk |].
  destruct (aggregated_sequence_length _ _ _ "test_a" _ Hagg Hk)
    as (Hhead & Hlen & _).
  split; [rewrite Hhead; apply lookup_singleton_eq | exact Hlen].
Defined.

(** ** A family of one run *)

(** X12: when a metric has a single value in the family (a bundle of one
    run, the default size), the summary reports that value as the mean and
    zero as the variance. *)
Theorem single_run_summary (self : Leaderboard) (t : string)
    (model_name : option string) (n : nat)
    (aggregated : gmap string (list Np.float)) (k : string) (q : Q) :
  aggregated !! k = Some [Np.Fin q] ->
  Py.contains "test" k = true ->
  let summary :=
    run_metrics (summary_run self t model_name n
                   (metrics_mean_of aggregated) (metrics_var_of aggregated)) in
  exists m v,
    summary !! (k +:+ "_mean") = Some m /\ Np.eqv m (Np.Fin q)
    /\ summary !! (k +:+ "_var") = Some v /\ Np.eqv v (Np.Fin 0).
Proof.
  intros Hk Htest summary.
  exists (Np.mean [Np.Fin q]), (Np.var [Np.Fin q]).
  split; [| split; [| split]].
  - apply summary_lookup. exists k, [Np.Fin q]. by auto.
  - unfold Np.eqv, Np.mean, Np.sum, Np.div_count. simpl. field.
  - apply summary_lookup. exists k, [Np.Fin q]. by auto.
  - unfold Np.eqv, Np.var, Np.mean, Np.sum, Np.div_count. simpl. field.
Qed.

Lemma single_run_summary_witness :
  exists m v,
    run_metrics (summary_run Demo.self "t" None 1
                   (metrics_mean_of {[ "test_a" := [Np.Fin 7] ]})
                   (metrics_var_of {[ "test_a" := [Np.Fin 7] ]}))
      !! "test_a_mean" = Some m
    /\ Np.eqv m (Np.Fin 7)
    /\ run_metrics (summary_run Demo.self "t" None 1
                      (metrics_mean_of {[ "test_a" := [Np.Fin 7] ]})
                      (metrics_var_of {[ "test_a" := [Np.Fin 7] ]}))
         !! "test_a_var" = Some v
    /\ Np.eqv v (Np.Fin 0).
Proof.
  exact (single_run_summary Demo.self "t" None 1
           {[ "test_a" := [Np.Fin 7] ]} "test_a" 7
           (lookup_singleton_eq _ _) eq_refl).
Defined.

(** ** The dispatcher *)

Section Dispatch.

Variable env : Env.
Variable world : Oracle.

Lemma print_submitting_ok d_types : forall w,
  exists w', print_submitting d_types w = (Ok tt, w').
Proof.
  induction d_types as [|d d_types IH]; intros w; [by eexists |].
  cbn [print_submitting]. unfold bind, print. apply IH.
Qed.

Lemma run_pool_no_raise fuel self d_types : forall w e w',
  run_pool env world fuel self d_types w ≠ (Raise e, w').
Proof.
  induction d_types as [|d d_types IH]; intros w e w'; [done |].
  cbn [run_pool]. unfold bind, apply_async, try_except, ret.
  destruct (submit_bundle env world fuel self d w) as [[[]|e0|] w1];
    [apply IH | apply IH | done].
Qed.

End Dispatch.

(** X13: an exception leaves [submit] only in the single-dataset mode, and
    then it is an exception of the submission phase of that dataset: with
    [dataset_type] set to [leaderboard] the tasks of the pool keep their
    exceptions to themselves, and the aggregation exceptions are caught in
    either mode. *)
Theorem submit_raises_only_from_submission (env : Env) (world : Oracle)
    (fuel : nat) (self : Leaderboard) (w : World) (e : exn) (w' : World) :
  submit env world fuel self w = (Raise e, w') ->
  dataset_type self ≠ "leaderboard"
  /\ run_bundle env world fuel self (dataset_type self) w = (Raise e, w').
Proof.
  unfold submit.
  destruct (String.eqb_spec (dataset_type self) "leaderboard") as [Heq|Hne].
  - unfold submit_on_all_datasets, bind.
    destruct (print_submitting_ok (leader_boards self) w) as [w0 ->].
    intros H. by apply run_pool_no_raise in H.
  - intros H. split; [done |]. revert H. unfold submit_bundle, bind.
    destruct (run_bundle env world fuel self (dataset_type self) w)
      as [[[]|e0|] w1]; [|done|done].
    pose proof (aggregation_step world self (dataset_type self) w1) as Hstep.
    destruct (average_metrics world self (dataset_type self) w1)
      as [[[]|e0|] w2]; [by rewrite Hstep | by rewrite Hstep | done].
Qed.

Lemma submit_raises_only_from_submission_witness :
  exists w',
    submit Demo.env Demo.silent 5 Demo.self Demo.w0 = (Raise TimeoutExpired, w')
    /\ dataset_type Demo.self ≠ "leaderboard"
    /\ run_bundle Demo.env Demo.silent 5 Demo.self (dataset_type Demo.self)
         Demo.w0 = (Raise TimeoutExpired, w').
Proof.
  set (w' := (submit Demo.env Demo.silent 5 Demo.self Demo.w0).2).
  assert (submit Demo.env Demo.silent 5 Demo.self Demo.w0
          = (Raise TimeoutExpired, w')) as H by (vm_compute; reflexivity).
  exists w'. split; [exact H |].
  exact (submit_raises_only_from_submission Demo.env Demo.silent 5 Demo.self
           Demo.w0 TimeoutExpired w' H).
Defined.

(** ** The constructor *)

(** X14: [Leaderboard(...)] raises the [RuntimeError] about the trainer
    script exactly when the trainer path does not exist; otherwise it
    keeps its arguments, and every dataset of its leader boards is one
    that command construction accepts, so that the mode for all datasets
    never meets an unknown [dataset_type]. *)
Theorem init_checks_trainer (env : Env) (world : Oracle)
    (trainer dataset name : string) (size : Z) (verbose_flag : bool) :
  match init world trainer dataset name size verbose_flag with
  | Ok self =>
      path_exists world trainer = true
      /\ trainer_path self = trainer /\ dataset_type self = dataset
      /\ run_name self = name /\ bundle_size self = size
      /\ verbose self = verbose_flag
      /\ leader_boards self = ["kitti_4/6"; "discoman_v10"; "tum"]
      /\ (forall d run, d ∈ leader_boards self ->
            exists cmd, get_lsf_command env self d run = Ok cmd)
  | Raise e =>
      path_exists world trainer = false
      /\ e = RuntimeError ("Could not find trainer script " +:+ trainer)
  | OutOfFuel => False
  end.
Proof.
  unfold init. destruct (path_exists world trainer); simpl; [|done].
  repeat (split; [done |]).
  intros d run Hd. apply get_lsf_command_known.
  unfold configured_datasets. set_solver.
Qed.

(** ** The log file *)

Lemma str_replace_no_char a b s :
  a ≠ b -> Py.has_char a (str_replace a b s) = false.
Proof.
  intros Hab. induction s as [|c s IH]; simpl; [done |].
  rewrite IH, orb_false_r.
  destruct (Ascii.eqb_spec c a) as [->|Hca].
  - apply Ascii.eqb_neq. congruence.
  - by apply Ascii.eqb_neq.
Qed.

Lemma str_replace_idem a b s :
  a ≠ b -> str_replace a b (str_replace a b s) = str_replace a b s.
Proof.
  intros Hab. induction s as [|c s IH]; simpl; [done |].
  rewrite IH. f_equal.
  destruct (Ascii.eqb_spec c a) as [->|Hca].
  - destruct (Ascii.eqb_spec b a); congruence.
  - by destruct (Ascii.eqb_spec c a).
Qed.

(** X15: the log file that [setup_logger] opens for a dataset lies
    directly in [PROJECT_PATH]: the slashes of the dataset name are
    replaced, so that the file name has none (for [PROJECT_PATH] without a
    final slash the file is [PROJECT_PATH/log_leaderboard_<name>.txt]);
    two dataset names that differ only by slash against underscore share
    their log file. *)
Theorem log_file_flat (env : Env) (dataset_type : string) :
  let name := "log_leaderboard_" +:+ str_replace "/" "_" dataset_type +:+ ".txt" in
  Py.has_char "/" name = false
  /\ log_file env dataset_type = path_join (PROJECT_PATH env) name
  /\ (PROJECT_PATH env ≠ "" -> last_char (PROJECT_PATH env) ≠ Some "/"%char ->
      log_file env dataset_type = PROJECT_PATH env +:+ "/" +:+ name)
  /\ log_file env (str_replace "/" "_" dataset_type) = log_file env dataset_type.
Proof.
  intros name. split; [| split; [done | split]].
  - unfold name. rewrite !has_char_app, str_replace_no_char by done. done.
  - intros Hne Hlast. unfold log_file, path_join. fold name.
    destruct (String.eqb_spec (PROJECT_PATH env) ""); [done |].
    destruct (last_char (PROJECT_PATH env)) as [c|] eqn:Hc.
    + destruct (Ascii.eqb_spec c "/") as [->|]; [done |]. reflexivity.
    + destruct (PROJECT_PATH env) as [|c0 s0]; [done |].
      exfalso. clear -Hc. revert c0 Hc.
      induction s0 as [|c1 s1 IH]; intros c0 Hc; [discriminate |].
      exact (IH c1 Hc).
  - unfold log_file. by rewrite str_replace_idem.
Qed.

(** ** Handles that coincide *)

Lemma size_list_to_set_le (l : list string) :
  (size (list_to_set l : gset string) <= length l)%nat
  /\ (size (list_to_set l : gset string) = length l <-> NoDup l).
Proof.
  induction l as [|x l [IHle IHeq]].
  - split; [done |]. split; [constructor | done].
  - cbn [list_to_set foldr length].
    destruct (decide (x ∈ l)) as [Hin|Hout].
    + assert ({[x]} ∪ (list_to_set l : gset string) = list_to_set l) as ->.
      { apply subseteq_union_1_L. apply singleton_subseteq_l.
        by apply elem_of_list_to_set. }
      split; [lia |]. split.
      * intros Hsize. lia.
      * intros [Hx _]%NoDup_cons. done.
    + rewrite size_union, size_singleton.
      2: { apply disjoint_singleton_l. by rewrite elem_of_list_to_set. }
      split; [lia |]. split.
      * intros Hsize. constructor; [done |]. apply IHeq. lia.
      * intros [_ Hnd]%NoDup_cons. f_equal. by apply IHeq.
Qed.

(** X16: the handles of a bundle are kept in a set: when the scheduler
    acknowledges the [N] submissions of a known dataset, the tracked set
    has at most [N] handles, and fewer than [N] exactly when two answers
    carry the same handle, in which case the wait watches fewer jobs than
    were submitted. *)
Theorem tracked_handles_collapse (env : Env) (world : Oracle)
    (self : Leaderboard) (dataset_type : string) (handles : list string)
    (w : World) :
  dataset_type ∈ configured_datasets ->
  bundle_size self = Z.of_nat (length handles) ->
  (forall i h, handles !! i = Some h ->
     exists outs,
       bsub_out world (length (bsub_calls w) + i) = Completed outs
       /\ parse_job_id outs = Ok h) ->
  exists started w',
    submit_jobs env world self dataset_type (Py.range (bundle_size self)) ∅ w
    = (Ok started, w')
    /\ length (bsub_calls w') = (length (bsub_calls w) + length handles)%nat
    /\ (size started <= length handles)%nat
    /\ (size started < length handles <-> ~ NoDup handles)%nat.
Proof.
  intros Hd Hsize Hresp.
  destruct (submit_jobs_run env world self dataset_type handles 0 ∅ w Hd Hresp)
    as (w' & cmds & Hrun & Hcalls & Hcmds & _).
  unfold Py.range. rewrite Hsize, Nat2Z.id, Hrun, (left_id_L ∅ (∪)).
  exists (list_to_set handles), w'. split; [done |].
  destruct (size_list_to_set_le handles) as [Hle Heq].
  split.
  { rewrite Hcalls, length_app. f_equal.
    apply (f_equal length) in Hcmds.
    by rewrite !length_fmap, length_seq in Hcmds. }
  split; [exact Hle |]. rewrite <- Heq. lia.
Qed.

Lemma tracked_handles_collapse_witness :
  let same := mkOracle (fun _ => Completed "Job <7> is submitted")
                (fun _ => "") (fun _ => "") (fun _ => true) in
  exists started w',
    submit_jobs Demo.env same Demo.self "tum"
      (Py.range (bundle_size Demo.self)) ∅ Demo.w0 = (Ok started, w')
    /\ length (bsub_calls w') = 3%nat
    /\ (size started < 3)%nat.
Proof.
  intros same.
  destruct (tracked_handles_collapse Demo.env same Demo.self "tum"
              ["7"; "7"; "7"] Demo.w0) as (started & w' & Hrun & Hcalls & _ & Hlt).
  - unfold configured_datasets. rewrite !elem_of_cons. tauto.
  - reflexivity.
  - intros [|[|[|i]]] h [= <-]; eexists; split; reflexivity.
  - exists started, w'. split; [exact Hrun |]. split; [exact Hcalls |].
    apply Hlt. intros Hnd. apply NoDup_cons in Hnd as [Hin _].
    apply Hin. apply elem_of_cons. by left.
Defined.

(** ** The pipeline of a dataset, end to end *)

(** X17: the pipeline of a known dataset succeeds when the scheduler
    acknowledges the [N] submissions, the status query number [n] (counted
    from the first query of the wait) is the first that lists none of the
    handles, with [n] below the fuel, and the experiment holds runs with a
    [run_name] each and a non-empty family.  It then has handed [N]
    commands to the scheduler, made [n + 1] status queries, slept [n]
    times 10, and listed one summary run, over all the runs of the family,
    before the runs of the experiment. *)
Theorem pipeline_succeeds (env : Env) (world : Oracle) (fuel : nat)
    (self : Leaderboard) (dataset_type : string) (handles : list string)
    (n : nat) (runs : list Run) (w : World) :
  dataset_type ∈ configured_datasets ->
  bundle_size self = Z.of_nat (length handles) ->
  (forall i h, handles !! i = Some h ->
     exists outs,
       bsub_out world (length (bsub_calls w) + i) = Completed outs
       /\ parse_job_id outs = Ok h) ->
  (n < fuel)%nat ->
  (forall j, (j < n)%nat ->
     still_running world (list_to_set handles) (bjobs_calls w + j) ≠ ∅) ->
  still_running world (list_to_set handles) (bjobs_calls w + n) = ∅ ->
  tracking w !! dataset_type = Some runs ->
  Forall (fun r => is_Some (run_params r !! "run_name")) runs ->
  family self runs ≠ [] ->
  exists w' summary,
    submit_bundle env world fuel self dataset_type w = (Ok tt, w')
    /\ length (bsub_calls w') = (length (bsub_calls w) + length handles)%nat
    /\ bjobs_calls w' = (bjobs_calls w + S n)%nat
    /\ slept w' = slept w ++ replicate n 10%nat
    /\ tracking w' = <[ dataset_type := summary :: runs ]> (tracking w)
    /\ run_params summary !! "run_name" = Some (run_name self +:+ "_av")
    /\ run_params summary !! "num_of_runs_to_average"
       = Some (Py.str_of_nat (length (family self runs)))
    /\ run_metrics summary
       = run_metrics (summary_of world self w
                        (run_metrics <$> family self runs) None).
Proof.
  intros Hd Hsize Hresp Hfuel Hbusy Hclear Hruns Hnames Hfamily.
  unfold submit_bundle, run_bundle, bind, setup_logger, ret, logger_info.
  unfold Py.range. rewrite Hsize, Nat2Z.id.
  match goal with |- context [submit_jobs env world self dataset_type _ ∅ ?w0] =>
    destruct (submit_jobs_run env world self dataset_type handles 0 ∅ w0 Hd Hresp)
      as (w1 & cmds & Hrun & Hcalls & Hcmds & Hq1 & Hs1 & Ht1 & Hc1)
  end.
  rewrite Hrun, (left_id_L ∅ (∪)). cbn [bjobs_calls slept tracking] in Hq1, Hs1, Ht1.
  assert (length cmds = length handles) as Hlen.
  { apply (f_equal length) in Hcmds.
    by rewrite !length_fmap, length_seq in Hcmds. }
  match goal with |- context [wait_jobs world fuel dataset_type ?st ?w0] =>
    destruct (wait_jobs_done world dataset_type st n fuel w0)
      as (w2 & Hwait & Hq2 & Hs2);
      [ lia
      | intros j Hj; cbn [bjobs_calls]; rewrite Hq1; by apply Hbusy
      | cbn [bjobs_calls]; by rewrite Hq1
      | pose proof (wait_jobs_frame world dataset_type st fuel w0 _ _ Hwait)
          as (Hb2 & Ht2 & _) ]
  end.
  rewrite Hwait. cbn [bsub_calls bjobs_calls slept tracking] in Hq2, Hs2, Hb2, Ht2.
  pose proof (load_runs_spec self runs [] None) as Hspec.
  match goal with |- context [try_except _ _ ?w0] => set (w3 := w0) end.
  assert (tracking w3 = tracking w) as Ht3
    by (unfold w3; cbn [tracking]; congruence).
  pose proof (aggregation_step world self dataset_type w3) as Hstep.
  rewrite (average_metrics_unfold world self dataset_type w3) in Hstep.
  rewrite Ht3, Hruns in Hstep.
  destruct (load_runs self runs [] None) as [[metrics m]|e|].
  2: { destruct Hspec as [_ Hex]. exfalso.
       apply Exists_exists in Hex as (r & Hin & Hnone).
       rewrite Forall_forall in Hnames. specialize (Hnames r Hin).
       rewrite Hnone in Hnames. by destruct Hnames. }
  2: done.
  destruct Hspec as [Hmetrics _]. simpl in Hmetrics.
  fold (family self runs) in Hmetrics.
  destruct metrics as [|first rest].
  { symmetry in Hmetrics. by apply fmap_nil_inv in Hmetrics. }
  eexists _, _. split; [exact Hstep |].
  cbn [with_run bsub_calls bjobs_calls slept tracking].
  rewrite Ht3, Hruns. unfold w3.
  cbn [bsub_calls bjobs_calls slept tracking].
  rewrite Hb2, Hcalls, length_app, Hlen, Hq2, Hq1, Hs2, Hs1.
  split; [done |]. split; [done |]. split; [done |]. split; [done |].
  rewrite summary_of_params by done.
  split.
  { rewrite !lookup_insert_ne by done. by rewrite lookup_insert_eq. }
  split.
  { rewrite lookup_insert_eq. by rewrite Hmetrics, length_fmap. }
  rewrite Hmetrics. apply summary_of_metrics.
Qed.

Lemma pipeline_succeeds_witness :
  exists w' summary,
    submit_bundle Demo.env Demo.world 5 Demo.self "tum" Demo.w0 = (Ok tt, w')
    /\ length (bsub_calls w') = 3%nat
    /\ bjobs_calls w' = 3%nat
    /\ slept w' = [10; 10]%nat
    /\ tracking w' = <[ "tum" := summary :: Demo.runs ]> (tracking Demo.w0)
    /\ run_params summary !! "num_of_runs_to_average" = Some "3".
Proof.
  destruct (pipeline_succeeds Demo.env Demo.world 5 Demo.self "tum"
              ["100"; "101"; "102"] 2 Demo.runs Demo.w0)
    as (w' & summary & Hrun & Hb & Hq & Hs & Ht & _ & Hn & _).
  - unfold configured_datasets. rewrite !elem_of_cons. tauto.
  - reflexivity.
  - intros [|[|[|i]]] h [= <-]; eexists; split; reflexivity.
  - lia.
  - intros [|[|j]] Hj; [| | lia];
      apply (non_empty_inhabited_L "101"); vm_compute; reflexivity.
  - vm_compute. reflexivity.
  - reflexivity.
  - repeat (constructor; [eexists; reflexivity |]). constructor.
  - intros H. vm_compute in H. discriminate.
  - exists w', summary. split; [exact Hrun |]. split; [exact Hb |].
    split; [exact Hq |]. split; [exact Hs |]. split; [exact Ht |].
    rewrite Hn. vm_compute. reflexivity.
Defined.

(** X18: a job that never leaves the listing of the scheduler stalls its
    pipeline for good: when the submissions are acknowledged and every
    status query lists one of the handles, [submit_bundle] uses up any
    fuel in the wait, with as many queries and sleeps as it was given
    fuel, and the metrics are never aggregated. *)
Theorem pipeline_stalls (env : Env) (world : Oracle) (fuel : nat)
    (self : Leaderboard) (dataset_type : string) (handles : list string)
    (w : World) :
  dataset_type ∈ configured_datasets ->
  bundle_size self = Z.of_nat (length handles) ->
  (forall i h, handles !! i = Some h ->
     exists outs,
       bsub_out world (length (bsub_calls w) + i) = Completed outs
       /\ parse_job_id outs = Ok h) ->
  (forall j, (j < fuel)%nat ->
     still_running world (list_to_set handles) (bjobs_calls w + j) ≠ ∅) ->
  exists w',
    submit_bundle env world fuel self dataset_type w = (OutOfFuel, w')
    /\ bjobs_calls w' = (bjobs_calls w + fuel)%nat
    /\ slept w' = slept w ++ replicate fuel 10%nat
    /\ tracking w' = tracking w.
Proof.
  intros Hd Hsize Hresp Hbusy.
  unfold submit_bundle, run_bundle, bind, setup_logger, ret, logger_info.
  unfold Py.range. rewrite Hsize, Nat2Z.id.
  match goal with |- context [submit_jobs env world self dataset_type _ ∅ ?w0] =>
    destruct (submit_jobs_run env world self dataset_type handles 0 ∅ w0 Hd Hresp)
      as (w1 & cmds & Hrun & Hcalls & Hcmds & Hq1 & Hs1 & Ht1 & Hc1)
  end.
  rewrite Hrun, (left_id_L ∅ (∪)). cbn [bjobs_calls slept tracking] in Hq1, Hs1, Ht1.
  match goal with |- context [wait_jobs world fuel dataset_type ?st ?w0] =>
    destruct (wait_jobs_busy world dataset_type st fuel w0)
      as (w2 & Hwait & Hq2 & Hs2);
      [ intros j Hj; cbn [bjobs_calls]; rewrite Hq1; by apply Hbusy
      | pose proof (wait_jobs_frame world dataset_type st fuel w0 _ _ Hwait)
          as (_ & Ht2 & _) ]
  end.
  rewrite Hwait. cbn [bjobs_calls slept tracking] in Hq2, Hs2, Ht2.
  exists w2. split; [done |].
  rewrite Hq2, Hq1, Hs2, Hs1, Ht2, Ht1. done.
Qed.

Lemma pipeline_stalls_witness :
  let stuck := mkOracle (bsub_out Demo.world)
                 (fun _ => "JOBID" +:+ Demo.nl +:+ "101 user RUN" +:+ Demo.nl)
                 (fun _ => "") (fun _ => true) in
  exists w',
    submit_bundle Demo.env stuck 4 Demo.self "tum" Demo.w0 = (OutOfFuel, w')
    /\ bjobs_calls w' = 4%nat
    /\ tracking w' = tracking Demo.w0.
Proof.
  intros stuck.
  destruct (pipeline_stalls Demo.env stuck 4 Demo.self "tum"
              ["100"; "101"; "102"] Demo.w0)
    as (w' & Hrun & Hq & _ & Ht).
  - unfold configured_datasets. rewrite !elem_of_cons. tauto.
  - reflexivity.
  - intros [|[|[|i]]] h [= <-]; eexists; split; reflexivity.
  - intros j _. apply (non_empty_inhabited_L "101"). vm_compute. reflexivity.
  - exists w'. by repeat split.
Defined.

(** ** Which keys count as test metrics *)

Section Substring.

Implicit Types (s t sub : string).

Lemma prefix_iff sub s :
  String.prefix sub s = true <-> exists b, s = sub +:+ b.
Proof.
  revert s. induction sub as [|c sub IH]; intros s.
  - split; [intros _; by exists s | intros _; by destruct s].
  - destruct s as [|d s]; simpl.
    + split; [done | intros [b Hb]; discriminate].
    + destruct (Ascii.ascii_dec c d) as [->|Hne].
      * rewrite IH. split; intros [b Hb]; exists b; [by rewrite Hb | by injection Hb].
      * split; [done | intros [b Hb]; injection Hb as Hcd _; congruence].
Qed.

(** [sub in s] holds exactly when [sub] occurs somewhere in [s]. *)
Lemma contains_iff sub s :
  Py.contains sub s = true <-> exists a b, s = a +:+ sub +:+ b.
Proof.
  induction s as [|d s IH].
  - cbn [Py.contains]. rewrite orb_false_r, prefix_iff. split.
    + intros [b Hb]. by exists "", b.
    + intros (a & b & Hab). destruct a; [by exists b | discriminate].
  - cbn [Py.contains]. rewrite orb_true_iff, IH, prefix_iff. split.
    + intros [[b Hb]|(a & b & Hab)].
      * by exists "", b.
      * exists (String d a), b. by rewrite Hab.
    + intros (a & b & Hab). destruct a as [|c a].
      * left. by exists b.
      * right. injection Hab as _ Hab. by exists a, b.
Qed.

End Substring.

(** X19: a metric is summarised exactly when [test] occurs anywhere in its
    name: the summary has a mean (and a variance) for the key [k] of the
    aggregated metrics if and only if [k] is some text, [test], and some
    text, so that a name such as [latest_score] counts as a test metric
    and [Test_loss] does not. *)
Theorem summarised_iff_test_occurs (self : Leaderboard) (t : string)
    (model_name : option string) (n : nat)
    (aggregated : gmap string (list Np.float)) (k : string) :
  let summary :=
    run_metrics (summary_run self t model_name n
                   (metrics_mean_of aggregated) (metrics_var_of aggregated)) in
  (is_Some (summary !! (k +:+ "_mean"))
   <-> k ∈ dom aggregated /\ exists a b, k = a +:+ "test" +:+ b)
  /\ (is_Some (summary !! (k +:+ "_var"))
      <-> k ∈ dom aggregated /\ exists a b, k = a +:+ "test" +:+ b)
  /\ Py.contains "test" "latest_score" = true
  /\ Py.contains "test" "Test_loss" = false.
Proof.
  intros summary.
  assert (forall suffix,
            (suffix = "_mean" \/ suffix = "_var") ->
            is_Some (summary !! (k +:+ suffix))
            <-> k ∈ dom aggregated /\ exists a b, k = a +:+ "test" +:+ b)
    as Hboth.
  { intros suffix Hsuffix. rewrite <- contains_iff, elem_of_dom. split.
    - intros [x Hx]. apply summary_lookup in Hx as (k' & vs & Hk & Htest & Hs).
      assert (k' = k) as ->.
      { destruct Hsuffix as [-> | ->]; destruct Hs as [[Heq _]|[Heq _]].
        - by apply mean_key_inj in Heq.
        - by apply mean_key_not_var in Heq.
        - symmetry in Heq. by apply mean_key_not_var in Heq.
        - by apply var_key_inj in Heq. }
      split; [by eexists | done].
    - intros [[vs Hk] Htest].
      destruct Hsuffix as [-> | ->].
      + exists (Np.mean vs). apply summary_lookup. exists k, vs. by auto.
      + exists (Np.var vs). apply summary_lookup. exists k, vs. by auto. }
  split; [apply Hboth; by left |]. split; [apply Hboth; by right |].
  split; reflexivity.
Qed.
